(** * Pinterest video downloader: a shallow embedding of
      [scripts/pinterest_downloader.py] and the properties of its
      manifest resolver, fetcher, muxer, metadata extractor and
      orchestrator.

    Python [str] values are modelled as [string] (one [ascii] per
    character, code points below 256).  Network, file-system and
    subprocess effects are threaded through a small state-and-exception
    monad whose state carries the list of effects issued so far and the
    files on disk; the answers of the collaborators come from a [World]
    that may depend on everything issued before. *)

From Stdlib Require Import ZArith Ascii String Bool List Lia.
From stdpp Require Import base strings gmap list.

Local Open Scope Z_scope.

(** String append unfolds under [simpl] as list append does. *)
#[local] Arguments String.append !s1 s2 : simpl nomatch.

(* ================================================================= *)
(** ** Python string primitives                                         *)
(* ================================================================= *)

Module PyStr.

(** [s.startswith(p)] *)
Definition startswith (p s : string) : bool := String.prefix p s.

(** [s.endswith(suf)] *)
Fixpoint endswith (suf s : string) : bool :=
  if String.eqb suf s then true
  else match s with
       | EmptyString => false
       | String _ s' => endswith suf s'
       end.

(** [needle in s] *)
Fixpoint contains (needle s : string) : bool :=
  if String.prefix needle s then true
  else match s with
       | EmptyString => false
       | String _ s' => contains needle s'
       end.

(** [s[n:]] *)
Fixpoint drop (n : nat) (s : string) : string :=
  match n, s with
  | O, _ => s
  | S _, EmptyString => EmptyString
  | S k, String _ s' => drop k s'
  end.

(** [s.split(sep)] for a one-character separator: never the empty list. *)
Fixpoint split (sep : ascii) (s : string) : list string :=
  match s with
  | EmptyString => [EmptyString]
  | String c s' =>
      let r := split sep s' in
      if Ascii.eqb c sep then EmptyString :: r
      else match r with
           | h :: t => String c h :: t
           | [] => [String c EmptyString]
           end
  end.

(** [s.split(sep)[-1]] *)
Definition split_last (sep : ascii) (s : string) : string :=
  List.last (split sep s) EmptyString.

(** [s.rsplit(sep, 1)[0]]: what precedes the last separator, the whole
    string when there is none. *)
Fixpoint rsplit1_head (sep : ascii) (s : string) : string :=
  match s with
  | EmptyString => EmptyString
  | String c s' =>
      if contains (String sep EmptyString) s' then String c (rsplit1_head sep s')
      else if Ascii.eqb c sep then EmptyString
      else String c s'
  end.

(** Characters [str.isspace] accepts among the code points below 256. *)
Definition isspace (c : ascii) : bool :=
  let n := Ascii.nat_of_ascii c in
  ((9 <=? n) && (n <=? 13) || (28 <=? n) && (n <=? 32)
   || (n =? 133) || (n =? 160))%nat.

Fixpoint lstrip (s : string) : string :=
  match s with
  | EmptyString => EmptyString
  | String c s' => if isspace c then lstrip s' else s
  end.

Fixpoint rstrip (s : string) : string :=
  match s with
  | EmptyString => EmptyString
  | String c s' =>
      match rstrip s' with
      | EmptyString => if isspace c then EmptyString else String c EmptyString
      | r => String c r
      end
  end.

(** [s.strip()] *)
Definition strip (s : string) : string := rstrip (lstrip s).

(** The scan of [s.replace(old, new)] for a non-empty [old]: [skip]
    counts the characters of a match still to be passed over. *)
Fixpoint replace_scan (old new : string) (skip : nat) (s : string) : string :=
  match s with
  | EmptyString => EmptyString
  | String c s' =>
      match skip with
      | S k => replace_scan old new k s'
      | O =>
          if String.prefix old s
          then new +:+ replace_scan old new (Nat.pred (String.length old)) s'
          else String c (replace_scan old new O s')
      end
  end.

(** With an empty [old], Python puts [new] before every character and
    at the end. *)
Fixpoint intersperse (new s : string) : string :=
  match s with
  | EmptyString => new
  | String c s' => new +:+ String c (intersperse new s')
  end.

(** [s.replace(old, new)]: every non-overlapping occurrence, leftmost
    first. *)
Definition replace (old new s : string) : string :=
  match old with
  | EmptyString => intersperse new s
  | String _ _ => replace_scan old new O s
  end.

(** Python truthiness of a value that is [None] or a [str]. *)
Definition truthy (o : option string) : bool :=
  match o with
  | Some (String _ _) => true
  | _ => false
  end.

(** [c] is one of the characters of [s]. *)
Fixpoint has_char (c : ascii) (s : string) : bool :=
  match s with
  | EmptyString => false
  | String d s' => Ascii.eqb d c || has_char c s'
  end.

(** No character of [mid] is one of [old]. *)
Fixpoint foreign (old mid : string) : bool :=
  match mid with
  | EmptyString => true
  | String c mid' => negb (has_char c old) && foreign old mid'
  end.

(** [old] has no border: an occurrence that starts inside [a] and
    reaches into a following [old] lies in [a] altogether. *)
Definition unbordered (old : string) : Prop :=
  forall a b, a <> "" -> String.prefix old (a +:+ old +:+ b) = true ->
              String.prefix old a = true.

End PyStr.

Import PyStr.

(* ================================================================= *)
(** ** Effects: collaborators, state and the exception monad            *)
(* ================================================================= *)

(** What the program asks of its collaborators, in the order asked. *)
Inductive Event : Type :=
| EvHead (url : string)            (* requests.head(url) *)
| EvGet (url : string)             (* requests.get(url) *)
| EvStream (url : string)          (* requests.get(url, stream=True) *)
| EvOpen (path : string)           (* open(path, "wb") *)
| EvRemove (path : string)         (* os.remove(path) *)
| EvMakedirs (path : string)       (* os.makedirs(path, exist_ok=True) *)
| EvNow                            (* datetime.now() *)
| EvRun (cmd : list string).       (* subprocess.run(cmd, ...) *)

(** A response as the resolver reads it: [status_code] and [text]. *)
Record Response : Type := mkResponse {
  status_code : Z;
  text : string
}.

(** A streamed response as [download_file] reads it.  [content_length]
    is what [int(response.headers.get("Content-Length", 0))] meets:
    [None] when the header is missing, [Some None] when it is there and
    [int] rejects it, [Some (Some n)] when it reads as [n].  [chunks] are
    the values [iter_content(1024)] yields, and [stream_breaks] says that
    the iterator then raises instead of stopping. *)
Record StreamResponse : Type := mkStream {
  stream_status : Z;
  content_length : option (option Z);
  chunks : list string;
  stream_breaks : bool
}.

(** An element as BeautifulSoup hands it out: [tag.get(attr)] and
    [tag.get_text()]. *)
Record Tag : Type := mkTag {
  tag_get : string -> option string;
  get_text : string
}.

(** A parsed document: [soup.find(name, attribute filters)] and
    [str(soup)].  The parser is a collaborator; only its query interface
    is used. *)
Record Soup : Type := mkSoup {
  soup_find : string -> list (string * string) -> option Tag;
  soup_str : string
}.

(** The collaborators.  Every answer may depend on the effects issued so
    far; [None] stands for a raised exception. *)
Record World : Type := mkWorld {
  http_head : list Event -> string -> option Z;
  http_get : list Event -> string -> option Response;
  http_stream : list Event -> string -> option StreamResponse;
  html_parser : string -> Soup;
  fs_open_ok : list Event -> string -> bool;
  fs_makedirs_ok : list Event -> string -> bool;
  clock : list Event -> string;
  proc_run : list Event -> list string -> option Z;
  proc_files : list Event -> list string -> gmap string string -> gmap string string
}.

(** The effects issued so far and the files on disk with their bytes. *)
Record State : Type := mkState {
  trace : list Event;
  files : gmap string string
}.

Inductive Result (A : Type) : Type :=
| Ok (a : A)
| Exn (msg : string).
Arguments Ok {A} a.
Arguments Exn {A} msg.

Definition M (A : Type) : Type := World -> State -> Result A * State.

Definition ret {A} (a : A) : M A := fun _ s => (Ok a, s).

Definition raise {A} (msg : string) : M A := fun _ s => (Exn msg, s).

Definition bind {A B} (m : M A) (k : A -> M B) : M B :=
  fun w s =>
    match m w s with
    | (Ok a, s') => k a w s'
    | (Exn e, s') => (Exn e, s')
    end.

(** [try: body except Exception: handler] *)
Definition try_except {A} (body : M A) (handler : string -> M A) : M A :=
  fun w s =>
    match body w s with
    | (Ok a, s') => (Ok a, s')
    | (Exn e, s') => handler e w s'
    end.

Declare Scope py_scope.
Delimit Scope py_scope with py.
Notation "x <- m ;; k" := (bind m (fun x => k))
  (at level 100, m at next level, right associativity) : py_scope.
Notation "m ;;; k" := (bind m (fun _ => k))
  (at level 100, right associativity) : py_scope.
Local Open Scope py_scope.

Definition log (e : Event) (s : State) : State :=
  mkState (trace s ++ [e]) (files s).

Definition requests_head (url : string) : M Z :=
  fun w s =>
    match http_head w (trace s) url with
    | Some st => (Ok st, log (EvHead url) s)
    | None => (Exn "RequestException", log (EvHead url) s)
    end.

Definition requests_get (url : string) : M Response :=
  fun w s =>
    match http_get w (trace s) url with
    | Some r => (Ok r, log (EvGet url) s)
    | None => (Exn "RequestException", log (EvGet url) s)
    end.

Definition requests_get_stream (url : string) : M StreamResponse :=
  fun w s =>
    match http_stream w (trace s) url with
    | Some r => (Ok r, log (EvStream url) s)
    | None => (Exn "RequestException", log (EvStream url) s)
    end.

(** [open(path, "wb")]: the file is created, or truncated. *)
Definition open_wb (path : string) : M unit :=
  fun w s =>
    if fs_open_ok w (trace s) path
    then (Ok tt, mkState (trace s ++ [EvOpen path]) (<[path := EmptyString]> (files s)))
    else (Exn "OSError", log (EvOpen path) s).

(** [f.write(data)] on the file opened at [path]. *)
Definition file_write (path data : string) : M unit :=
  fun _ s =>
    (Ok tt, mkState (trace s)
              (<[path := default EmptyString (files s !! path) +:+ data]> (files s))).

(** [os.remove(path)] *)
Definition os_remove (path : string) : M unit :=
  fun _ s =>
    match files s !! path with
    | Some _ => (Ok tt, mkState (trace s ++ [EvRemove path]) (delete path (files s)))
    | None => (Exn "FileNotFoundError", log (EvRemove path) s)
    end.

(** [os.makedirs(path, exist_ok=True)] *)
Definition os_makedirs (path : string) : M unit :=
  fun w s =>
    if fs_makedirs_ok w (trace s) path
    then (Ok tt, log (EvMakedirs path) s)
    else (Exn "OSError", log (EvMakedirs path) s).

(** [datetime.now().strftime("%Y-%m-%dT%H-%M-%S")] *)
Definition now_strftime : M string :=
  fun w s => (Ok (clock w (trace s)), log EvNow s).

(** [subprocess.run(cmd, capture_output=True, text=True).returncode];
    the tool may change the files. *)
Definition subprocess_run (cmd : list string) : M Z :=
  fun w s =>
    match proc_run w (trace s) cmd with
    | Some rc => (Ok rc, mkState (trace s ++ [EvRun cmd]) (proc_files w (trace s) cmd (files s)))
    | None => (Exn "OSError", log (EvRun cmd) s)
    end.

(** [BeautifulSoup(content, "html.parser")] *)
Definition BeautifulSoup (content : string) : M Soup :=
  fun w s => (Ok (html_parser w content), s).

(* ================================================================= *)
(** ** The regular expressions of the source                            *)
(* ================================================================= *)

Module Re.

Definition dquote : ascii := "034"%char.
Definition squote : ascii := "039"%char.
Definition newline : ascii := "010"%char.

(** The longest run of characters not in [stop] at the head of [s],
    and what is left. *)
Fixpoint span (stop : ascii -> bool) (s : string) : string * string :=
  match s with
  | EmptyString => (EmptyString, EmptyString)
  | String c s' =>
      if stop c then (EmptyString, s)
      else let (g, r) := span stop s' in (String c g, r)
  end.

Definition is_dquote (c : ascii) : bool := Ascii.eqb c dquote.
Definition is_quote (c : ascii) : bool := Ascii.eqb c dquote || Ascii.eqb c squote.

(** A match of [prefix], a group of characters other than the double
    quote, and a closing double quote, anchored at the head of [s]:
    the group. *)
Definition quoted_after (prefix s : string) : option string :=
  if String.prefix prefix s then
    match span is_dquote (drop (String.length prefix) s) with
    | (g, String _ _) => Some g
    | (_, EmptyString) => None
    end
  else None.

(** The leftmost position of [s] at which [anchored] matches. *)
Fixpoint leftmost (anchored : string -> option string) (s : string) : option string :=
  match anchored s with
  | Some g => Some g
  | None => match s with
            | EmptyString => None
            | String _ s' => leftmost anchored s'
            end
  end.

(** Group 1 of the search for the audio sub-manifest, the pattern at
    line 39: [URI=], a double quote, a group made of characters other
    than the double quote followed by [_audio\.m3u8], and a double
    quote.  The group cannot hold a double quote and one follows it, so
    it is the whole run up to the next double quote, and it has to end
    in [_audio.m3u8]. *)
Definition search_audio_uri (s : string) : option string :=
  leftmost (fun t =>
    match quoted_after ("URI=" +:+ String dquote EmptyString) t with
    | Some g => if endswith "_audio.m3u8" g then Some g else None
    | None => None
    end) s.

(** The lazy group of [url=(.*?)&] anchored at the head of [s]: up to
    the first [&], which no newline may precede. *)
Fixpoint lazy_to_amp (s : string) : option string :=
  match s with
  | EmptyString => None
  | String c s' =>
      if Ascii.eqb c "&" then Some EmptyString
      else if Ascii.eqb c newline then None
      else match lazy_to_amp s' with
           | Some g => Some (String c g)
           | None => None
           end
  end.

(** Group 1 of the search for [url=(.*?)&], line 224. *)
Definition search_url_param (s : string) : option string :=
  leftmost (fun t =>
    if String.prefix "url=" t then lazy_to_amp (drop 4 t) else None) s.

(** The longest prefix of [r] that ends in [suf]. *)
Fixpoint longest_ending (suf r : string) : option string :=
  match r with
  | EmptyString => if String.eqb suf EmptyString then Some EmptyString else None
  | String c r' =>
      match longest_ending suf r' with
      | Some p => Some (String c p)
      | None => if String.prefix suf r then Some suf else None
      end
  end.

(** First element of [re.findall] for a literal [prefix], a greedy run
    of characters that are neither quote, and a literal [suf] (the
    first two patterns at lines 255-256): the run gives back
    characters until [suf] ends the match. *)
Definition first_url_with (prefix suf : string) (s : string) : option string :=
  leftmost (fun t =>
    if String.prefix prefix t then
      match longest_ending suf (fst (span is_quote (drop (String.length prefix) t))) with
      | Some p => Some (prefix +:+ p)
      | None => None
      end
    else None) s.

(** First element of [re.findall] for a JSON string field (the last
    two patterns at lines 257-258): the value between the double
    quotes. *)
Definition first_json_field (field : string) (s : string) : option string :=
  leftmost (quoted_after
    (String dquote field +:+ String dquote (String ":" (String dquote EmptyString)))) s.

End Re.

(* ================================================================= *)
(** ** get_video_and_audio_urls                                         *)
(* ================================================================= *)

(** The Tier-1 rewrite of line 24: [hls] replaced by [720p], then [m3u8]
    by [mp4]. *)
Definition simple_convert (m3u8_url : string) : string :=
  replace "m3u8" "mp4" (replace "hls" "720p" m3u8_url).

(** Line 35: what precedes the last slash of the URL, and a slash. *)
Definition base_url_of (m3u8_url : string) : string :=
  rsplit1_head "/" m3u8_url +:+ "/".

(** The loop over the lines of a sub-manifest, the same for audio
    ([.cmfa]) and video ([.cmfv]): the first line with the suffix whose
    URL answers 200 to HEAD is kept and the loop left; [found] is the
    variable the loop assigns. *)
Fixpoint scan_segments (base_url suffix : string) (found : option string)
    (lines : list string) : M (option string) :=
  match lines with
  | [] => ret found
  | line :: rest =>
      if endswith suffix line then
        let file_url := base_url +:+ strip line in
        check_response <- requests_head file_url ;;
        if check_response =? 200 then ret (Some file_url)
        else scan_segments base_url suffix found rest
      else scan_segments base_url suffix found rest
  end.

(** Lines 38-52: the audio track. *)
Definition extract_audio (base_url playlist_content : string) : M (option string) :=
  match Re.search_audio_uri playlist_content with
  | Some group1 =>
      let audio_playlist_url := base_url +:+ group1 in
      audio_response <- requests_get audio_playlist_url ;;
      if status_code audio_response =? 200
      then scan_segments base_url ".cmfa" None (split Re.newline (text audio_response))
      else ret None
  | None => ret None
  end.

Definition quality_order : list string := ["720w"; "540w"; "360w"; "240w"].

(** The f-string of lines 59 and 61: [_], the quality, [.m3u8]. *)
Definition quality_marker (quality : string) : string :=
  "_" +:+ quality +:+ ".m3u8".

(** Lines 60-62: the last segment of the URL with [.m3u8] replaced by
    the quality marker, after the base URL. *)
Definition stream_url_of (m3u8_url quality : string) : string :=
  base_url_of m3u8_url +:+
  replace ".m3u8" (quality_marker quality) (split_last "/" m3u8_url).

(** Lines 60-74: one quality, its sub-manifest fetched and scanned. *)
Definition try_quality (m3u8_url : string) (video_url : option string)
    (quality : string) : M (option string) :=
  stream_response <- requests_get (stream_url_of m3u8_url quality) ;;
  if status_code stream_response =? 200
  then scan_segments (base_url_of m3u8_url) ".cmfv" video_url
         (split Re.newline (text stream_response))
  else ret video_url.

(** Lines 58-77: the loop over the qualities; it is left only once
    [video_url] is set. *)
Fixpoint quality_loop (m3u8_url playlist_content : string)
    (video_url : option string) (qualities : list string) : M (option string) :=
  match qualities with
  | [] => ret video_url
  | quality :: rest =>
      if contains (quality_marker quality) playlist_content then
        video_url' <- try_quality m3u8_url video_url quality ;;
        if truthy video_url' then ret video_url'
        else quality_loop m3u8_url playlist_content video_url' rest
      else quality_loop m3u8_url playlist_content video_url rest
  end.

(** Lines 81-86: the lines of the manifest that hold [.mp4] and start
    with [http]. *)
Fixpoint scan_mp4 (video_url : option string) (lines : list string) : M (option string) :=
  match lines with
  | [] => ret video_url
  | line :: rest =>
      if contains ".mp4" line && startswith "http" line then
        check_response <- requests_head (strip line) ;;
        if check_response =? 200 then ret (Some (strip line))
        else scan_mp4 video_url rest
      else scan_mp4 video_url rest
  end.

(** Lines 29-92, once Tier 1 has not answered 200. *)
Definition parse_playlist (m3u8_url : string) : M (option string * option string * string) :=
  response <- requests_get m3u8_url ;;
  if negb (status_code response =? 200) then ret (None, None, "failed")
  else
    let playlist_content := text response in
    let base_url := base_url_of m3u8_url in
    audio_url <- extract_audio base_url playlist_content ;;
    video_url <- quality_loop m3u8_url playlist_content None quality_order ;;
    video_url <- (if negb (truthy video_url)
                  then scan_mp4 video_url (split Re.newline playlist_content)
                  else ret video_url) ;;
    if truthy video_url
    then ret (video_url, audio_url,
              if truthy audio_url then "hls_separate" else "hls_video_only")
    else ret (None, None, "failed").

Definition get_video_and_audio_urls (m3u8_url : string)
    : M (option string * option string * string) :=
  try_except
    (let simple_convert_url := simple_convert m3u8_url in
     response <- requests_head simple_convert_url ;;
     if response =? 200 then ret (Some simple_convert_url, None, "simple")
     else parse_playlist m3u8_url)
    (fun _ => ret (None, None, "failed")).

(* ================================================================= *)
(** ** merge_video_audio                                                *)
(* ================================================================= *)

(** The argument list of lines 113-127. *)
Definition ffmpeg_cmd (video_file audio_file output_file : string) : list string :=
  ["ffmpeg"; "-i"; video_file; "-i"; audio_file; "-c:a"; "copy"; "-c:v"; "libx264";
   "-vf";
   "drawtext=text='@faithandfork':fontsize=20:fontcolor=white:x=(w-text_w)/2:y=h-th-200:box=1:boxcolor=black@0.5:boxborderw=5";
   "-y"; output_file].

Definition merge_video_audio (video_file audio_file output_file : string) : M bool :=
  try_except
    (result <- subprocess_run ["ffmpeg"; "-version"] ;;
     if negb (result =? 0) then ret false
     else
       result <- subprocess_run (ffmpeg_cmd video_file audio_file output_file) ;;
       if result =? 0 then
         os_remove video_file ;;;
         os_remove audio_file ;;;
         ret true
       else ret false)
    (fun _ => ret false).

(* ================================================================= *)
(** ** download_file                                                    *)
(* ================================================================= *)

(** [int(response.headers.get("Content-Length", 0))] *)
Definition int_content_length (h : option (option Z)) : M Z :=
  match h with
  | None => ret 0
  | Some (Some n) => ret n
  | Some None => raise "ValueError"
  end.

(** Lines 153-156: every non-empty chunk is written and counted; the
    iterator may raise once its chunks are out. *)
Fixpoint write_chunks (filename : string) (data_chunks : list string) (breaks : bool)
    (bytes_written : Z) : M Z :=
  match data_chunks with
  | [] => if breaks then raise "RequestException" else ret bytes_written
  | data :: rest =>
      match data with
      | String _ _ =>
          file_write filename data ;;;
          write_chunks filename rest breaks
            (bytes_written + Z.of_nat (String.length data))
      | EmptyString => write_chunks filename rest breaks bytes_written
      end
  end.

Definition download_file (url filename : string) : M bool :=
  try_except
    (response <- requests_get_stream url ;;
     if negb (stream_status response =? 200) then ret false
     else
       file_size <- int_content_length (content_length response) ;;
       open_wb filename ;;;
       bytes_written <- write_chunks filename (chunks response) (stream_breaks response) 0 ;;
       if bytes_written =? 0 then
         os_remove filename ;;;
         ret false
       else ret true)
    (fun _ => ret false).

(* ================================================================= *)
(** ** extract_pinterest_metadata                                       *)
(* ================================================================= *)

Record PageMetadata : Type := mkMetadata {
  title : option string;
  description : option string;
  keywords : list string
}.

(** [tag and tag.get("content")] followed by [tag["content"]]: the
    content when the element is there and its content is not empty. *)
Definition content_of (tag : option Tag) : option string :=
  match tag with
  | Some t => if truthy (tag_get t "content") then tag_get t "content" else None
  | None => None
  end.

Definition extract_pinterest_metadata (soup : Soup) : PageMetadata :=
  let metadata_title : option string := None in
  (* og:title *)
  let og_title := soup_find soup "meta" [("property", "og:title")] in
  let metadata_title :=
    match content_of og_title with
    | Some c => Some c
    | None => metadata_title
    end in
  (* twitter:title as fallback *)
  let metadata_title :=
    if negb (truthy metadata_title) then
      let twitter_title := soup_find soup "meta" [("name", "twitter:title")] in
      match content_of twitter_title with
      | Some c => Some c
      | None => metadata_title
      end
    else metadata_title in
  (* the title element as last resort *)
  let metadata_title :=
    if negb (truthy metadata_title) then
      match soup_find soup "title" [] with
      | Some title_tag => Some (strip (get_text title_tag))
      | None => metadata_title
      end
    else metadata_title in
  let metadata_description : option string := None in
  let og_description := soup_find soup "meta" [("property", "og:description")] in
  let metadata_description :=
    match content_of og_description with
    | Some c => Some c
    | None => metadata_description
    end in
  let metadata_description :=
    if negb (truthy metadata_description) then
      let desc_tag := soup_find soup "meta" [("name", "description")] in
      match content_of desc_tag with
      | Some c => Some c
      | None => metadata_description
      end
    else metadata_description in
  let keywords_tag := soup_find soup "meta" [("name", "keywords")] in
  let metadata_keywords :=
    match content_of keywords_tag with
    | Some c =>
        List.map strip
          (List.filter (fun k => truthy (Some (strip k))) (split "," c))
    | None => []
    end in
  mkMetadata metadata_title metadata_description metadata_keywords.

(* ================================================================= *)
(** ** download_pinterest_video                                         *)
(* ================================================================= *)

Record DownloadResult : Type := mkResult {
  filePath : string;
  metadata : PageMetadata
}.

(** [os.path.join(a, b)] for POSIX paths. *)
Definition path_join (a b : string) : string :=
  if startswith "/" b then b
  else match a with
       | EmptyString => b
       | _ => if endswith "/" a then a +:+ b else a +:+ "/" +:+ b
       end.

(** [tag.get("src")] is truthy, then [tag["src"]]. *)
Definition src_of (tag : option Tag) : option string :=
  match tag with
  | Some t => if truthy (tag_get t "src") then tag_get t "src" else None
  | None => None
  end.

(** The four patterns of lines 254-259, each as the first element of
    its [re.findall]. *)
Definition video_patterns : list (string -> option string) :=
  [Re.first_url_with "https://v1.pinimg.com/videos/" ".m3u8";
   Re.first_url_with "https://v1.pinimg.com/videos/" ".mp4";
   Re.first_json_field "videoUrl";
   Re.first_json_field "video_url"].

(** Lines 261-265: the first pattern with a match gives the URL. *)
Fixpoint first_pattern_match (patterns : list (string -> option string))
    (page_text : string) (extract_url : option string) : option string :=
  match patterns with
  | [] => extract_url
  | pattern :: rest =>
      match pattern page_text with
      | Some m => Some m
      | None => first_pattern_match rest page_text extract_url
      end
  end.

(** Lines 217-225: a short link is followed to the page it names. *)
Definition resolve_short_url (page_url : string) : M string :=
  if contains "https://pin.it/" page_url then
    t_body <- requests_get page_url ;;
    if negb (status_code t_body =? 200) then raise "Invalid URL or network error"
    else
      soup <- BeautifulSoup (text t_body) ;;
      match soup_find soup "link" [("rel", "alternate")] with
      | None => raise "TypeError"
      | Some link =>
          match tag_get link "href" with
          | None => raise "KeyError"
          | Some href_link =>
              match Re.search_url_param href_link with
              | None => raise "AttributeError"
              | Some group1 => ret group1
              end
          end
      end
  else ret page_url.

(** Lines 237-268: the candidate URL on the page. *)
Definition find_extract_url (soup : Soup) : M string :=
  let extract_url : option string := None in
  let video_element := soup_find soup "video" [("class", "hwa kVc MIw L4E")] in
  let extract_url :=
    match src_of video_element with
    | Some src => Some src
    | None => extract_url
    end in
  let extract_url :=
    if negb (truthy extract_url) then
      match src_of (soup_find soup "video" []) with
      | Some src => Some src
      | None => extract_url
      end
    else extract_url in
  let extract_url :=
    if negb (truthy extract_url)
    then first_pattern_match video_patterns (soup_str soup) extract_url
    else extract_url in
  match extract_url with
  | Some (String c u) => ret (String c u)
  | _ => raise "Could not find video URL on Pinterest page"
  end.

(** Lines 285-311: the downloads and the merge, once the URLs and the
    file names are known. *)
Definition download_tracks (video_url : string) (audio_url : option string)
    (output_dir timestamp : string) (pin_metadata : PageMetadata) : M DownloadResult :=
  let final_filename := path_join output_dir (timestamp +:+ ".mp4") in
  match audio_url with
  | Some (String c a) =>
      let audio_url := String c a in
      let video_filename := path_join output_dir (timestamp +:+ "_video.mp4") in
      let audio_filename := path_join output_dir (timestamp +:+ "_audio.mp4") in
      video_success <- download_file video_url video_filename ;;
      if negb video_success then raise "Failed to download video track"
      else
        audio_success <- download_file audio_url audio_filename ;;
        if negb audio_success then
          os_remove video_filename ;;;
          raise "Failed to download audio track"
        else
          merge_success <- merge_video_audio video_filename audio_filename final_filename ;;
          if negb merge_success then ret (mkResult video_filename pin_metadata)
          else ret (mkResult final_filename pin_metadata)
  | _ =>
      success <- download_file video_url final_filename ;;
      if negb success then raise "Failed to download video file"
      else ret (mkResult final_filename pin_metadata)
  end.

(** Lines 270-278: a playlist is resolved, anything else is the video
    itself. *)
Definition resolve_streams (extract_url : string) : M (string * option string * string) :=
  if endswith ".m3u8" extract_url then
    r <- get_video_and_audio_urls extract_url ;;
    let '(video_url, audio_url, method) := r in
    match video_url with
    | Some (String c v) => ret (String c v, audio_url, method)
    | _ => raise "Could not find downloadable video from playlist"
    end
  else ret (extract_url, None, "direct").

(** Lines 217-283: from the page URL to the stream URLs, the metadata
    and the timestamp of the file names. *)
Definition locate_streams (page_url output_dir : string)
    : M (string * option string * PageMetadata * string) :=
  page_url <- resolve_short_url page_url ;;
  body <- requests_get page_url ;;
  if negb (status_code body =? 200) then raise "Failed to fetch Pinterest page"
  else
    soup <- BeautifulSoup (text body) ;;
    let pin_metadata := extract_pinterest_metadata soup in
    extract_url <- find_extract_url soup ;;
    r <- resolve_streams extract_url ;;
    let '(video_url, audio_url, method) := r in
    os_makedirs output_dir ;;;
    timestamp <- now_strftime ;;
    ret (video_url, audio_url, pin_metadata, timestamp).

Definition download_pinterest_video (page_url output_dir : string) : M DownloadResult :=
  located <- locate_streams page_url output_dir ;;
  let '(video_url, audio_url, pin_metadata, timestamp) := located in
  download_tracks video_url audio_url output_dir timestamp pin_metadata.

(* ================================================================= *)
(** ** The command line                                                 *)
(* ================================================================= *)

(** The object the script prints, before [json.dumps] turns it into
    text: the usage error of lines 316-320, the success object of lines
    328-336, or the failure object of line 338 with [str(e)].  For an
    exception raised by a collaborator the message is the name the model
    gives it, not the collaborator's own text. *)
Inductive Output : Type :=
| OutUsage (error : string)
| OutSuccess (file_path : string) (meta : PageMetadata)
| OutFailure (error : string).

(** Lines 314-339: what is printed, in order, and the exit status of the
    process. *)
Definition main (argv : list string) : M (list Output * Z) :=
  if negb (Nat.eqb (List.length argv) 3) then
    ret ([OutUsage "Usage: python pinterest_downloader.py <url> <output_dir>"], 1)
  else
    let url := List.nth 1 argv EmptyString in
    let output_dir := List.nth 2 argv EmptyString in
    try_except
      (result <- download_pinterest_video url output_dir ;;
       ret ([OutSuccess (filePath result) (metadata result)], 0))
      (fun e => ret ([OutFailure e], 1)).

(* ================================================================= *)
(** ** Predicates the properties are stated with                        *)
(* ================================================================= *)

(** A program only ever adds to the trace. *)
Definition extends {A} (m : M A) : Prop :=
  forall w s, exists evs, trace (snd (m w s)) = trace s ++ evs.


(** The qualities whose marker the manifest does not hold. *)
Definition markers_absent (playlist_content : string) (qualities : list string) : bool :=
  forallb (fun q => negb (contains (quality_marker q) playlist_content)) qualities.

(** The external tool leaves the file at [path] as it is, whatever it is
    run with. *)
Definition tool_keeps (w : World) (path : string) : Prop :=
  forall t cmd fs, proc_files w t cmd fs !! path = fs !! path.

(** Under the collaborators [w], the program leaves the file at [path]
    as it is. *)
Definition keeps {A} (w : World) (path : string) (m : M A) : Prop :=
  forall s, files (snd (m w s)) !! path = files s !! path.

(** The string is empty or starts with a character that is no
    whitespace. *)
Definition starts_clean (s : string) : bool :=
  match s with
  | EmptyString => true
  | String c _ => negb (isspace c)
  end.

(** Between the trace [t0] and the trace [t1] that continues it, a HEAD
    request for [url] was issued and the collaborators answered it, at
    that point of the run, with 200. *)
Definition checked_in (w : World) (t0 t1 : list Event) (url : string) : Prop :=
  exists mid post,
    t1 = t0 ++ mid ++ EvHead url :: post
    /\ http_head w (t0 ++ mid) url = Some 200.

(** The bytes of a streamed body, chunk after chunk. *)
Definition concat_chunks (data_chunks : list string) : string :=
  fold_right String.append EmptyString data_chunks.

(** Every chunk of a streamed body is empty: nothing gets written. *)
Definition no_bytes (data_chunks : list string) : bool :=
  forallb (fun data => String.eqb data EmptyString) data_chunks.

(* ================================================================= *)
(** ** Scenarios: concrete collaborators                                *)
(* ================================================================= *)

Module Scenario.

Fixpoint assoc {A} (k : string) (l : list (string * A)) : option A :=
  match l with
  | [] => None
  | (k', v) :: l' => if String.eqb k k' then Some v else assoc k l'
  end.

(** The lines of a body, joined by newlines. *)
Fixpoint unlines (l : list string) : string :=
  match l with
  | [] => EmptyString
  | [x] => x
  | x :: l' => x +:+ String Re.newline (unlines l')
  end.

(** A server that answers by URL alone, 404 where nothing is listed; a
    disk that can be written; a tool that leaves the files alone. *)
Definition static_world (heads : list (string * Z))
    (gets : list (string * Response)) (streams : list (string * StreamResponse))
    (parser : string -> Soup) (tool : list string -> option Z) : World :=
  mkWorld
    (fun _ url => Some (default 404 (assoc url heads)))
    (fun _ url => Some (default (mkResponse 404 EmptyString) (assoc url gets)))
    (fun _ url => Some (default (mkStream 404 None [] false) (assoc url streams)))
    parser
    (fun _ _ => true)
    (fun _ _ => true)
    (fun _ => "2024-05-01T10-20-30")
    (fun _ cmd => tool cmd)
    (fun _ _ fs => fs).

Definition empty_soup : Soup := mkSoup (fun _ _ => None) EmptyString.

Definition no_tool (cmd : list string) : option Z := None.

Definition start : State := mkState [] ∅.

Definition manifest_url : string := "https://v1.pinimg.com/videos/mc/hls/ab/x.m3u8".
Definition manifest_base : string := "https://v1.pinimg.com/videos/mc/hls/ab/".

(** Tier 1 answers 200. *)
Definition tier1_world : World :=
  static_world [("https://v1.pinimg.com/videos/mc/720p/ab/x.mp4", 200)] [] []
    (fun _ => empty_soup) no_tool.



(** The manifest names an audio sub-manifest whose segment exists, no
    quality, and a direct file that exists. *)
Definition audio_and_mp4_body : string :=
  unlines ["#EXTM3U";
           "#EXT-X-MEDIA:TYPE=AUDIO,URI=" +:+ String Re.dquote "x_audio.m3u8" +:+ String Re.dquote "";
           "https://v1.pinimg.com/videos/mc/expMp4/ab/x.mp4"].

Definition audio_and_mp4_world : World :=
  static_world
    [(manifest_base +:+ "a.cmfa", 200);
     ("https://v1.pinimg.com/videos/mc/expMp4/ab/x.mp4", 200)]
    [(manifest_url, mkResponse 200 audio_and_mp4_body);
     (manifest_base +:+ "x_audio.m3u8", mkResponse 200 (unlines ["#EXTM3U"; "a.cmfa"]))]
    [] (fun _ => empty_soup) no_tool.

(** An element with the given attributes and text. *)
Definition element (attrs : list (string * string)) (txt : string) : Tag :=
  mkTag (fun name => assoc name attrs) txt.

(** A page without [og:title], with a [twitter:title] and a title
    element. *)
Definition twitter_soup : Soup :=
  mkSoup
    (fun name filters =>
       match filters with
       | [] => if String.eqb name "title"
               then Some (element [] " Page title ") else None
       | [(k, v)] =>
           if String.eqb name "meta" && String.eqb k "name"
              && String.eqb v "twitter:title"
           then Some (element [("name", "twitter:title"); ("content", "Pin title")]
                        EmptyString)
           else None
       | _ => None
       end)
    EmptyString.

(** A download whose body comes with 200 and holds no byte. *)
Definition empty_body_world : World :=
  static_world [] []
    [("https://v1.pinimg.com/videos/mc/expMp4/ab/x.mp4",
      mkStream 200 (Some (Some 0)) [EmptyString] false)]
    (fun _ => empty_soup) no_tool.

(** The tool answers its version probe and fails at anything else. *)
Definition failing_tool (cmd : list string) : option Z :=
  if Nat.eqb (List.length cmd) 2 then Some 0 else Some 1.

Definition tool_only_world (tool : list string -> option Z) : World :=
  static_world [] [] [] (fun _ => empty_soup) tool.

Definition two_files : State :=
  mkState [] (<["out/v.mp4" := "VIDEO"]> (<["out/a.mp4" := "AUDIO"]> ∅)).

(** A pin page whose video element names the manifest; the manifest
    has an audio track and a 720w video track, both there. *)
Definition pin_page_url : string := "https://www.pinterest.com/pin/1/".

Definition pin_soup : Soup :=
  mkSoup
    (fun name filters =>
       match filters with
       | [] => if String.eqb name "video"
               then Some (element [("src", manifest_url)] EmptyString) else None
       | _ => None
       end)
    EmptyString.

Definition pin_manifest_body : string :=
  unlines ["#EXTM3U";
           "#EXT-X-MEDIA:TYPE=AUDIO,URI=" +:+ String Re.dquote "x_audio.m3u8" +:+ String Re.dquote "";
           "x_720w.m3u8"].

Definition video_segment : string := manifest_base +:+ "v.cmfv".
Definition audio_segment : string := manifest_base +:+ "a.cmfa".

Definition pin_world (streams : list (string * StreamResponse))
    (tool : list string -> option Z) : World :=
  static_world
    [(video_segment, 200); (audio_segment, 200)]
    [(pin_page_url, mkResponse 200 "<html></html>");
     (manifest_url, mkResponse 200 pin_manifest_body);
     (manifest_base +:+ "x_audio.m3u8", mkResponse 200 (unlines ["#EXTM3U"; "a.cmfa"]));
     (manifest_base +:+ "x_720w.m3u8", mkResponse 200 (unlines ["#EXTM3U"; "v.cmfv"]))]
    streams (fun _ => pin_soup) tool.

Definition video_stream : string * StreamResponse :=
  (video_segment, mkStream 200 None ["VID"; "EO"] false).
Definition audio_stream : string * StreamResponse :=
  (audio_segment, mkStream 200 None ["AUDIO"] false).

(** Both tracks download, the tool fails at the mux. *)
Definition mux_fails_world : World := pin_world [video_stream; audio_stream] failing_tool.
(** The video track downloads, the audio track answers 404. *)
Definition audio_fails_world : World := pin_world [video_stream] failing_tool.
(** The video track answers 404. *)
Definition video_fails_world : World := pin_world [audio_stream] failing_tool.

(** One file to fetch, with the given streamed response. *)
Definition file_url : string := "https://v1.pinimg.com/videos/mc/expMp4/ab/x.mp4".

Definition one_stream_world (response : StreamResponse) : World :=
  static_world [] [] [(file_url, response)] (fun _ => empty_soup) no_tool.

(** A disk that already holds a file at the destination and another
    one. *)
Definition old_files : State :=
  mkState [] (<["out/x.mp4" := "OLD"]> (<["out/other.mp4" := "KEEP"]> ∅)).

(** A page whose meta elements are the listed ones, found by the one
    attribute the query filters on, and whose title element is given. *)
Definition meta_soup (metas : list (string * string * string))
    (title_text : option string) : Soup :=
  mkSoup
    (fun name filters =>
       match filters with
       | [] => if String.eqb name "title"
               then option_map (element []) title_text else None
       | [(k, v)] =>
           if String.eqb name "meta" then
             option_map (fun c => element [(k, v); ("content", c)] EmptyString)
               (assoc v (List.map (fun m => (snd (fst m), snd m))
                           (List.filter (fun m => String.eqb (fst (fst m)) k) metas)))
           else None
       | _ => None
       end)
    EmptyString.

(** A pin page whose video element names a file, not a playlist. *)
Definition direct_soup : Soup :=
  mkSoup
    (fun name filters =>
       match filters with
       | [] => if String.eqb name "video"
               then Some (element [("src", file_url)] EmptyString) else None
       | _ => None
       end)
    EmptyString.

Definition direct_world (streams : list (string * StreamResponse)) : World :=
  static_world [] [(pin_page_url, mkResponse 200 "<html></html>")] streams
    (fun _ => direct_soup) no_tool.

(** Both tracks download and the tool succeeds. *)
Definition mux_succeeds_world : World :=
  pin_world [video_stream; audio_stream] (fun _ => Some 0).

End Scenario.

(* ================================================================= *)
(** ** Properties of the string primitives                              *)
(* ================================================================= *)

Example replace_all_hls :
  replace "hls" "720p" "https://v1/hls/x_hls.m3u8" = "https://v1/720p/x_720p.m3u8".
Proof. reflexivity. Qed.

Example replace_leftmost : replace "aa" "b" "aaa" = "ba".
Proof. reflexivity. Qed.

Example rsplit_ex : rsplit1_head "/" "https://v1/hls/x.m3u8" = "https://v1/hls".
Proof. reflexivity. Qed.

Example split_ex : split "/" "a//b/" = ["a"; ""; "b"; ""].
Proof. reflexivity. Qed.

Example strip_ex : strip "  a b  " = "a b".
Proof. reflexivity. Qed.

Example simple_convert_ex :
  simple_convert "https://v1.pinimg.com/videos/mc/hls/ab/cd/x.m3u8"
  = "https://v1.pinimg.com/videos/mc/720p/ab/cd/x.mp4".
Proof. reflexivity. Qed.

Section Replace.

Lemma append_assoc (a b c : string) : (a +:+ b) +:+ c = a +:+ (b +:+ c).
Proof. induction a as [|x a IH]; simpl; [reflexivity | now rewrite IH]. Qed.

Lemma append_nil_r (a : string) : a +:+ "" = a.
Proof. induction a as [|x a IH]; simpl; [reflexivity | now rewrite IH]. Qed.

Lemma length_append (a b : string) :
  String.length (a +:+ b) = (String.length a + String.length b)%nat.
Proof. induction a as [|x a IH]; simpl; [reflexivity | now rewrite IH]. Qed.

Lemma contains_cons (n : string) (c : ascii) (s : string) :
  contains n (String c s)
  = if String.prefix n (String c s) then true else contains n s.
Proof. reflexivity. Qed.

Lemma prefix_append (p s : string) : String.prefix p (p +:+ s) = true.
Proof.
  induction p as [|x p IH]; simpl; [now destruct s |].
  destruct (ascii_dec x x); [exact IH | congruence].
Qed.

Lemma prefix_split (p s : string) :
  String.prefix p s = true -> exists r, s = p +:+ r.
Proof.
  revert s; induction p as [|x p IH]; intros s H.
  - exists s; reflexivity.
  - destruct s as [|y s]; simpl in H; [discriminate |].
    destruct (ascii_dec x y) as [->|]; [| discriminate].
    destruct (IH _ H) as [r ->]. exists r; reflexivity.
Qed.

Variables old new : string.
Hypothesis old_nonempty : old <> "".

Lemma replace_scan_skip (x s : string) :
  replace_scan old new (String.length x) (x +:+ s) = replace_scan old new O s.
Proof. induction x as [|c x IH]; simpl; [reflexivity | exact IH]. Qed.

(** A match at the head is replaced and the scan goes on behind it. *)
Lemma replace_match (s : string) :
  replace old new (old +:+ s) = new +:+ replace old new s.
Proof.
  unfold replace. destruct old as [|c o] eqn:E; [congruence |].
  change (String c o +:+ s) with (String c (o +:+ s)).
  cbn [replace_scan].
  change (String c (o +:+ s)) with (String c o +:+ s).
  rewrite prefix_append.
  change (Nat.pred (String.length (String c o))) with (String.length o).
  f_equal. rewrite <- E. apply replace_scan_skip.
Qed.

(** No match at the head: the character is kept. *)
Lemma replace_nomatch (c : ascii) (s : string) :
  String.prefix old (String c s) = false ->
  replace old new (String c s) = String c (replace old new s).
Proof.
  unfold replace. destruct old as [|d o] eqn:E; [congruence |].
  intros H. cbn [replace_scan]. now rewrite H.
Qed.

Lemma replace_empty : replace old new "" = "".
Proof. unfold replace. destruct old eqn:E; [congruence | reflexivity]. Qed.

(** A string without an occurrence is left as it is. *)
Lemma replace_absent (s : string) :
  contains old s = false -> replace old new s = s.
Proof.
  induction s as [|c s IH]; intros H.
  - apply replace_empty.
  - rewrite contains_cons in H.
    destruct (String.prefix old (String c s)) eqn:P; [discriminate |].
    rewrite replace_nomatch by exact P. now rewrite IH.
Qed.

Lemma prefix_reaches (p a : string) (c : ascii) (b : string) :
  String.prefix p (a +:+ String c b) = true ->
  String.prefix p a = true \/ has_char c p = true.
Proof.
  revert p; induction a as [|d a IH]; intros p H.
  - destruct p as [|o p]; [left; reflexivity |].
    simpl in H. destruct (ascii_dec o c) as [->|]; [| discriminate].
    right. simpl. now rewrite Ascii.eqb_refl.
  - destruct p as [|o p]; [left; reflexivity |].
    simpl in H |- *. destruct (ascii_dec o d) as [->|]; [| discriminate].
    destruct (IH _ H) as [L|R]; [left; exact L |].
    right. rewrite R. apply orb_true_r.
Qed.

(** A character that [old] does not hold cuts the scan in two. *)
Lemma replace_foreign_char (c : ascii) (a b : string) :
  has_char c old = false ->
  replace old new (a +:+ String c b) = replace old new a +:+ String c (replace old new b).
Proof.
  intros Hc.
  remember (String.length a) as n eqn:Hn. revert a Hn.
  induction n as [n IH] using lt_wf_ind. intros a Hn.
  destruct a as [|d a].
  - rewrite replace_empty. simpl. apply replace_nomatch.
    destruct (String.prefix old (String c b)) eqn:P; [| reflexivity].
    destruct (prefix_reaches old "" c b P) as [L|R]; [| congruence].
    destruct old eqn:E; [congruence | discriminate].
  - destruct (String.prefix old (String d a)) eqn:P.
    + destruct (prefix_split _ _ P) as [r Hr]. rewrite Hr.
      rewrite append_assoc, !replace_match, append_assoc. f_equal.
      apply (IH (String.length r)); [| reflexivity].
      rewrite Hn, Hr, length_append.
      destruct old eqn:E; [congruence | simpl; lia].
    + change (String d a +:+ String c b) with (String d (a +:+ String c b)).
      rewrite replace_nomatch.
      * rewrite (replace_nomatch d a P). simpl. f_equal.
        apply (IH (String.length a)); [subst n; simpl; lia | reflexivity].
      * destruct (String.prefix old (String d (a +:+ String c b))) eqn:Q; [| reflexivity].
        destruct (prefix_reaches old (String d a) c b Q) as [L|R]; congruence.
Qed.

(** A piece of text that shares no character with [old] passes the
    scan untouched and cuts it in two. *)
Lemma replace_foreign (mid a b : string) :
  foreign old mid = true -> mid <> "" ->
  replace old new (a +:+ mid +:+ b) = replace old new a +:+ mid +:+ replace old new b.
Proof.
  revert a. induction mid as [|c mid IH]; intros a F Hne; [congruence |].
  simpl in F. apply andb_true_iff in F as [Fc Fm]. apply negb_true_iff in Fc.
  change (String c mid +:+ b) with (String c (mid +:+ b)).
  rewrite replace_foreign_char by exact Fc.
  destruct mid as [|c' mid'].
  - reflexivity.
  - specialize (IH "" Fm ltac:(discriminate)).
    rewrite replace_empty in IH. simpl in IH |- *. now rewrite IH.
Qed.

(** For an unbordered [old], any occurrence is replaced, wherever it
    stands. *)
Lemma replace_occurrence (a b : string) :
  unbordered old ->
  replace old new (a +:+ old +:+ b) = replace old new a +:+ new +:+ replace old new b.
Proof.
  intros U. unfold unbordered in U.
  remember (String.length a) as n eqn:Hn. revert a Hn.
  induction n as [n IH] using lt_wf_ind. intros a Hn.
  destruct a as [|d a].
  - rewrite replace_empty. simpl. apply replace_match.
  - destruct (String.prefix old (String d a)) eqn:P.
    + destruct (prefix_split _ _ P) as [r Hr]. rewrite Hr.
      rewrite append_assoc, !replace_match, append_assoc. f_equal.
      apply (IH (String.length r)); [| reflexivity].
      rewrite Hn, Hr, length_append.
      destruct old eqn:E; [congruence | simpl; lia].
    + change (String d a +:+ old +:+ b) with (String d (a +:+ old +:+ b)).
      rewrite replace_nomatch.
      * rewrite (replace_nomatch d a P). simpl. f_equal.
        apply (IH (String.length a)); [subst n; simpl; lia | reflexivity].
      * destruct (String.prefix old (String d (a +:+ old +:+ b))) eqn:Q; [| reflexivity].
        rewrite (U (String d a) b) in P; [discriminate | discriminate | exact Q].
Qed.

End Replace.

Lemma prefix_cons (x y : ascii) (p s : string) :
  String.prefix (String x p) (String y s)
  = if ascii_dec x y then String.prefix p s else false.
Proof. reflexivity. Qed.

Lemma prefix_nil_r (x : ascii) (p : string) : String.prefix (String x p) "" = false.
Proof. reflexivity. Qed.

Lemma prefix_nil_l (s : string) : String.prefix "" s = true.
Proof. now destruct s. Qed.

(** Case analysis on the characters a prefix test compares. *)
Ltac prefix_cases H :=
  cbn [String.append] in H;
  repeat (rewrite ?prefix_cons, ?prefix_nil_r, ?prefix_nil_l in H;
          rewrite ?prefix_cons, ?prefix_nil_r, ?prefix_nil_l;
          try discriminate H; try reflexivity;
          match type of H with
          | context [ascii_dec ?x ?y] =>
              let e := fresh "e" in
              destruct (ascii_dec x y) as [e|e];
              [try discriminate e; try subst | try discriminate H]
          end).

Lemma unbordered_hls : unbordered "hls".
Proof.
  intros a b Hne H.
  destruct a as [|c1 [|c2 [|c3 a]]]; [congruence | | |]; prefix_cases H.
Qed.

Lemma unbordered_m3u8 : unbordered "m3u8".
Proof.
  intros a b Hne H.
  destruct a as [|c1 [|c2 [|c3 [|c4 a]]]]; [congruence | | | |]; prefix_cases H.
Qed.

(** The Tier-1 rewrite at an occurrence of [hls]. *)
Lemma simple_convert_hls (a b : string) :
  simple_convert (a +:+ "hls" +:+ b) = simple_convert a +:+ "720p" +:+ simple_convert b.
Proof.
  unfold simple_convert.
  rewrite (replace_occurrence "hls" "720p") by (discriminate || apply unbordered_hls).
  apply (replace_foreign "m3u8" "mp4"); [discriminate | reflexivity | discriminate].
Qed.

(** The Tier-1 rewrite at an occurrence of [m3u8]. *)
Lemma simple_convert_m3u8 (a b : string) :
  simple_convert (a +:+ "m3u8" +:+ b) = simple_convert a +:+ "mp4" +:+ simple_convert b.
Proof.
  unfold simple_convert.
  rewrite (replace_foreign "hls" "720p") by (discriminate || reflexivity).
  apply (replace_occurrence "m3u8" "mp4"); [discriminate | apply unbordered_m3u8].
Qed.

(** A URL with neither substring is probed as it is. *)
Lemma simple_convert_absent (u : string) :
  contains "hls" u = false -> contains "m3u8" u = false -> simple_convert u = u.
Proof.
  intros H1 H2. unfold simple_convert.
  rewrite (replace_absent "hls" "720p") by (discriminate || exact H1).
  apply replace_absent; [discriminate | exact H2].
Qed.

(* ================================================================= *)
(** ** The monad: running a program and what it leaves in the trace    *)
(* ================================================================= *)

Lemma run_bind {A B} (m : M A) (k : A -> M B) (w : World) (s : State) :
  bind m k w s = match m w s with
                 | (Ok a, s') => k a w s'
                 | (Exn e, s') => (Exn e, s')
                 end.
Proof. reflexivity. Qed.

Lemma run_bind_ok {A B} (m : M A) (k : A -> M B) w s a s' :
  m w s = (Ok a, s') -> bind m k w s = k a w s'.
Proof. intros H. unfold bind. now rewrite H. Qed.

Lemma run_bind_exn {A B} (m : M A) (k : A -> M B) w s e s' :
  m w s = (Exn e, s') -> bind m k w s = (Exn e, s').
Proof. intros H. unfold bind. now rewrite H. Qed.

Section Extends.

Context {A B : Type}.

Lemma extends_ret (a : A) : extends (ret a).
Proof. intros w s. exists []. simpl. now rewrite app_nil_r. Qed.

Lemma extends_raise (e : string) : extends (raise (A := A) e).
Proof. intros w s. exists []. simpl. now rewrite app_nil_r. Qed.

Lemma extends_bind (m : M A) (k : A -> M B) :
  extends m -> (forall a, extends (k a)) -> extends (bind m k).
Proof.
  intros Hm Hk w s. unfold bind.
  destruct (Hm w s) as [e1 H1].
  destruct (m w s) as [[a|e] s1]; simpl in H1.
  - destruct (Hk a w s1) as [e2 H2]. exists (e1 ++ e2).
    now rewrite H2, H1, app_assoc.
  - exists e1. exact H1.
Qed.

Lemma extends_try (m : M A) (h : string -> M A) :
  extends m -> (forall e, extends (h e)) -> extends (try_except m h).
Proof.
  intros Hm Hh w s. unfold try_except.
  destruct (Hm w s) as [e1 H1].
  destruct (m w s) as [[a|e] s1]; simpl in H1.
  - exists e1. exact H1.
  - destruct (Hh e w s1) as [e2 H2]. exists (e1 ++ e2).
    now rewrite H2, H1, app_assoc.
Qed.

End Extends.

Lemma extends_requests_head url : extends (requests_head url).
Proof.
  intros w s. exists [EvHead url]. unfold requests_head.
  now destruct (http_head w (trace s) url).
Qed.

Lemma extends_requests_get url : extends (requests_get url).
Proof.
  intros w s. exists [EvGet url]. unfold requests_get.
  now destruct (http_get w (trace s) url).
Qed.

Lemma extends_requests_get_stream url : extends (requests_get_stream url).
Proof.
  intros w s. exists [EvStream url]. unfold requests_get_stream.
  now destruct (http_stream w (trace s) url).
Qed.

Lemma extends_open_wb path : extends (open_wb path).
Proof.
  intros w s. exists [EvOpen path]. unfold open_wb.
  now destruct (fs_open_ok w (trace s) path).
Qed.

Lemma extends_file_write path data : extends (file_write path data).
Proof. intros w s. exists []. simpl. now rewrite app_nil_r. Qed.

Lemma extends_os_remove path : extends (os_remove path).
Proof.
  intros w s. exists [EvRemove path]. unfold os_remove.
  now destruct (files s !! path).
Qed.

Lemma extends_os_makedirs path : extends (os_makedirs path).
Proof.
  intros w s. exists [EvMakedirs path]. unfold os_makedirs.
  now destruct (fs_makedirs_ok w (trace s) path).
Qed.

Lemma extends_now_strftime : extends now_strftime.
Proof. intros w s. exists [EvNow]. reflexivity. Qed.

Lemma extends_subprocess_run cmd : extends (subprocess_run cmd).
Proof.
  intros w s. exists [EvRun cmd]. unfold subprocess_run.
  now destruct (proc_run w (trace s) cmd).
Qed.

Lemma extends_BeautifulSoup content : extends (BeautifulSoup content).
Proof. intros w s. exists []. simpl. now rewrite app_nil_r. Qed.

Create HintDb extends discriminated.
#[local] Hint Resolve extends_requests_head extends_requests_get
  extends_requests_get_stream extends_open_wb extends_file_write
  extends_os_remove extends_os_makedirs extends_now_strftime
  extends_subprocess_run extends_BeautifulSoup : extends.

(** Goes through the binds, branches and matches of a program. *)
Ltac extends_step :=
  first
    [ apply extends_ret
    | apply extends_raise
    | solve [auto with extends]
    | apply extends_bind; [| intros ?]
    | apply extends_try; [| intros ?]
    | match goal with
      | |- extends (if ?b then _ else _) => destruct b
      | |- extends (match ?x with _ => _ end) => destruct x
      | |- extends (let '(_, _) := ?x in _) => destruct x
      end ].

Ltac extends_tac := repeat extends_step.

Lemma extends_scan_segments base_url suffix found lines :
  extends (scan_segments base_url suffix found lines).
Proof. induction lines as [|line rest IH]; simpl; extends_tac. Qed.
#[local] Hint Resolve extends_scan_segments : extends.

Lemma extends_extract_audio base_url content : extends (extract_audio base_url content).
Proof. unfold extract_audio. extends_tac. Qed.

Lemma extends_try_quality url v q : extends (try_quality url v q).
Proof. unfold try_quality. extends_tac. Qed.
#[local] Hint Resolve extends_extract_audio extends_try_quality : extends.

Lemma extends_quality_loop url content v qs : extends (quality_loop url content v qs).
Proof.
  revert v; induction qs as [|q rest IH]; intros v; simpl; extends_tac.
Qed.

Lemma extends_scan_mp4 v lines : extends (scan_mp4 v lines).
Proof. induction lines as [|line rest IH]; simpl; extends_tac. Qed.
#[local] Hint Resolve extends_quality_loop extends_scan_mp4 : extends.

Lemma extends_parse_playlist url : extends (parse_playlist url).
Proof. unfold parse_playlist. extends_tac. Qed.
#[local] Hint Resolve extends_parse_playlist : extends.

Lemma extends_get_video_and_audio_urls url : extends (get_video_and_audio_urls url).
Proof. unfold get_video_and_audio_urls. extends_tac. Qed.


Example audio_and_mp4_run :
  get_video_and_audio_urls Scenario.manifest_url Scenario.audio_and_mp4_world Scenario.start
  = (Ok (Some "https://v1.pinimg.com/videos/mc/expMp4/ab/x.mp4",
         Some "https://v1.pinimg.com/videos/mc/hls/ab/a.cmfa", "hls_separate"),
     mkState [EvHead "https://v1.pinimg.com/videos/mc/720p/ab/x.mp4";
              EvGet "https://v1.pinimg.com/videos/mc/hls/ab/x.m3u8";
              EvGet "https://v1.pinimg.com/videos/mc/hls/ab/x_audio.m3u8";
              EvHead "https://v1.pinimg.com/videos/mc/hls/ab/a.cmfa";
              EvHead "https://v1.pinimg.com/videos/mc/expMp4/ab/x.mp4"] ∅).
Proof. vm_compute. reflexivity. Qed.

(* ================================================================= *)
(** ** The manifest resolver                                            *)
(* ================================================================= *)

(** C2.  When the existence check on the Tier-1 rewritten URL answers
    200, [get_video_and_audio_urls] returns the rewritten URL, no audio
    and the method [simple], and that HEAD is the only request made: the
    manifest is not fetched and nothing is scanned. *)
Theorem C2_tier1_success_short_circuits (w : World) (s : State) (m3u8_url : string) :
  http_head w (trace s) (simple_convert m3u8_url) = Some 200 ->
  get_video_and_audio_urls m3u8_url w s
  = (Ok (Some (simple_convert m3u8_url), None, "simple"),
     mkState (trace s ++ [EvHead (simple_convert m3u8_url)]) (files s)).
Proof.
  intros H. unfold get_video_and_audio_urls, try_except, bind, requests_head.
  rewrite H. reflexivity.
Qed.

Lemma C2_tier1_success_short_circuits_witness :
  get_video_and_audio_urls Scenario.manifest_url Scenario.tier1_world Scenario.start
  = (Ok (Some "https://v1.pinimg.com/videos/mc/720p/ab/x.mp4", None, "simple"),
     mkState [EvHead "https://v1.pinimg.com/videos/mc/720p/ab/x.mp4"] ∅).
Proof.
  exact (C2_tier1_success_short_circuits Scenario.tier1_world Scenario.start
           Scenario.manifest_url eq_refl).
Defined.

(** C4.  Whatever the URL and whatever the collaborators answer, the
    resolver returns a triple (it never raises) in which the method
    [failed] comes with no video URL, and no audio URL comes without a
    video URL. *)
Theorem C4_result_invariant (w : World) (s : State) (m3u8_url : string) :
  exists video_url audio_url method,
    fst (get_video_and_audio_urls m3u8_url w s) = Ok (video_url, audio_url, method)
    /\ (method = "failed" -> video_url = None)
    /\ (video_url = None -> audio_url = None).
Proof.
  assert (F : exists v a m : _,
             Ok (A := option string * option string * string) (None, None, "failed") = Ok (v, a, m)
             /\ (m = "failed" -> v = None) /\ (v = None -> a = None)).
  { exists None, None, "failed". repeat split; reflexivity. }
  unfold get_video_and_audio_urls, try_except. rewrite run_bind.
  destruct (requests_head (simple_convert m3u8_url) w s) as [[st|e] s1]; [| exact F].
  destruct (st =? 200).
  { exists (Some (simple_convert m3u8_url)), None, "simple".
    repeat split; intros; discriminate. }
  unfold parse_playlist. rewrite run_bind.
  destruct (requests_get m3u8_url w s1) as [[resp|e] s2]; [| exact F].
  destruct (negb (status_code resp =? 200)); [exact F |].
  rewrite run_bind.
  destruct (extract_audio _ _ w s2) as [[a|e] s3]; [| exact F].
  rewrite run_bind.
  destruct (quality_loop _ _ _ _ w s3) as [[vq|e] s4]; [| exact F].
  rewrite run_bind.
  assert (R : exists r5, (if negb (truthy vq)
                          then scan_mp4 vq (split Re.newline (text resp))
                          else ret vq) w s4 = r5) by (eexists; reflexivity).
  destruct R as [[[v|e] s5] ->]; [| exact F].
  destruct (truthy v) eqn:T; [| exact F].
  exists v, a, (if truthy a then "hls_separate" else "hls_video_only").
  split; [reflexivity |]. split.
  - destruct (truthy a); discriminate.
  - intros ->. discriminate.
Qed.

(** What runs after a HEAD request finds that request in the trace. *)
Lemma head_then (url : string) (w : World) (s : State) X (k : M X) r s1 :
  requests_head url w s = (r, s1) ->
  extends k ->
  exists evs, trace (snd (k w s1)) = trace s ++ EvHead url :: evs.
Proof.
  intros E Hk. destruct (Hk w s1) as [evs Hevs]. exists evs.
  rewrite Hevs. unfold requests_head in E.
  destruct (http_head w (trace s) url);
    inversion E; subst; simpl; now rewrite <- app_assoc.
Qed.

(** C10.  The URL probed in Tier 1 is the input with [hls] replaced by
    [720p] and then [m3u8] by [mp4], by [str.replace]; and that rewrite
    replaces an occurrence of [hls] and an occurrence of [m3u8] wherever
    it stands in the URL, whatever precedes and follows it. *)
Theorem C10_tier1_rewrites_every_occurrence (w : World) (s : State) (m3u8_url a b : string) :
  (exists evs,
      trace (snd (get_video_and_audio_urls m3u8_url w s))
      = trace s ++ EvHead (replace "m3u8" "mp4" (replace "hls" "720p" m3u8_url)) :: evs)
  /\ simple_convert (a +:+ "hls" +:+ b)
     = simple_convert a +:+ "720p" +:+ simple_convert b
  /\ simple_convert (a +:+ "m3u8" +:+ b)
     = simple_convert a +:+ "mp4" +:+ simple_convert b.
Proof.
  split; [| split; [apply simple_convert_hls | apply simple_convert_m3u8]].
  fold (simple_convert m3u8_url).
  unfold get_video_and_audio_urls, try_except. rewrite run_bind.
  destruct (requests_head (simple_convert m3u8_url) w s) as [[st|e] s1] eqn:E;
    pose proof (head_then (simple_convert m3u8_url) w s) as T.
  - destruct (st =? 200).
    + apply (T _ (ret (Some (simple_convert m3u8_url), None, "simple")) _ _ E).
      apply extends_ret.
    + destruct (parse_playlist m3u8_url w s1) as [[r|e] s2] eqn:P.
      * change s2 with (snd (Ok r, s2)). rewrite <- P.
        apply (T _ (parse_playlist m3u8_url) _ _ E). apply extends_parse_playlist.
      * change (trace (snd (ret (A := option string * option string * string)
                              (None, None, "failed") w s2)))
          with (trace (snd (Exn (A := option string * option string * string) e, s2))).
        rewrite <- P.
        apply (T _ (parse_playlist m3u8_url) _ _ E). apply extends_parse_playlist.
  - apply (T _ (ret (None, None, "failed")) _ _ E). apply extends_ret.
Qed.




Lemma quality_loop_skip url content v pre rest :
  markers_absent content pre = true ->
  quality_loop url content v (pre ++ rest) = quality_loop url content v rest.
Proof.
  induction pre as [|q pre IH]; intros H; [reflexivity |].
  simpl in H. apply andb_true_iff in H as [Hq Hpre]. apply negb_true_iff in Hq.
  cbn [app quality_loop]. rewrite Hq. apply IH, Hpre.
Qed.

Lemma run_pair {A} (r : Result A * State) (a : A) : fst r = Ok a -> r = (Ok a, snd r).
Proof. destruct r as [x s]; simpl; now intros ->. Qed.

(** The resolver's run up to the end of the audio extraction, when Tier 1
    has answered something else than 200 and the manifest has come with
    200. *)
Lemma run_to_video_loop (w : World) (s : State) (m3u8_url : string)
    (st : Z) (resp : Response) (a : option string) :
  let s1 := log (EvHead (simple_convert m3u8_url)) s in
  let s2 := log (EvGet m3u8_url) s1 in
  let ra := extract_audio (base_url_of m3u8_url) (text resp) w s2 in
  http_head w (trace s) (simple_convert m3u8_url) = Some st -> st <> 200 ->
  http_get w (trace s1) m3u8_url = Some resp -> status_code resp = 200 ->
  fst ra = Ok a ->
  get_video_and_audio_urls m3u8_url w s
  = try_except
      (video_url <- quality_loop m3u8_url (text resp) None quality_order ;;
       video_url <- (if negb (truthy video_url)
                     then scan_mp4 video_url (split Re.newline (text resp))
                     else ret video_url) ;;
       if truthy video_url
       then ret (video_url, a, if truthy a then "hls_separate" else "hls_video_only")
       else ret (None, None, "failed"))
      (fun _ => ret (None, None, "failed")) w (snd ra).
Proof.
  intros s1 s2 ra Hh Hst Hg H200 Ha.
  unfold get_video_and_audio_urls, try_except.
  rewrite (run_bind_ok _ _ w s st s1) by (unfold requests_head; now rewrite Hh).
  apply Z.eqb_neq in Hst. rewrite Hst.
  unfold parse_playlist.
  rewrite (run_bind_ok _ _ w s1 resp s2) by (unfold requests_get; now rewrite Hg).
  rewrite H200. cbn [Z.eqb Pos.eqb negb].
  rewrite (run_bind_ok _ _ w s2 a (snd ra)) by (apply run_pair, Ha).
  reflexivity.
Qed.




Lemma strip_http_nonempty (line : string) :
  startswith "http" line = true -> truthy (Some (strip line)) = true.
Proof.
  intros H. destruct (prefix_split _ _ H) as [r ->].
  unfold strip. change ("http" +:+ r) with (String "h" ("ttp" +:+ r)).
  cbn [lstrip]. change (isspace "h") with false. cbn iota.
  cbn [rstrip]. destruct (rstrip ("ttp" +:+ r)); reflexivity.
Qed.

(** What the brute-force scan returns, when it returns a URL, is a line
    of the manifest that holds [.mp4], starts with [http] and, stripped,
    has answered 200 to HEAD. *)
Lemma scan_mp4_found (w : World) (lines : list string) (s s' : State) (v : string) :
  scan_mp4 None lines w s = (Ok (Some v), s') ->
  exists line t,
    In line lines /\ contains ".mp4" line = true /\ startswith "http" line = true
    /\ v = strip line /\ http_head w t v = Some 200.
Proof.
  revert s. induction lines as [|line rest IH]; intros s H.
  - discriminate.
  - cbn [scan_mp4] in H.
    destruct (contains ".mp4" line) eqn:C, (startswith "http" line) eqn:P;
      cbn [andb] in H;
      try (destruct (IH _ H) as (l & t & I & R); exists l, t; split; [right; exact I | exact R]).
    rewrite run_bind in H. unfold requests_head in H.
    destruct (http_head w (trace s) (strip line)) as [st|] eqn:Hh; [| discriminate].
    destruct (st =? 200) eqn:E.
    + apply Z.eqb_eq in E. subst st. inversion H; subst.
      exists line, (trace s). repeat split; auto. left; reflexivity.
    + destruct (IH _ H) as (l & t & I & R). exists l, t. split; [right; exact I | exact R].
Qed.

(** C3, as the code has it.  When Tier 2 has produced no video URL and
    the brute-force scan finds a line of the manifest that holds [.mp4],
    starts with [http] and answers 200 to HEAD, the resolver returns that
    line, stripped, as the video URL together with whatever audio URL the
    audio extraction has found: the method is [hls_separate] when there
    is one, [hls_video_only] when there is none. *)
Theorem C3_tier3_video_keeps_extracted_audio (w : World) (s : State) (m3u8_url : string)
    (st : Z) (resp : Response) (a : option string) (v : string) :
  let s1 := log (EvHead (simple_convert m3u8_url)) s in
  let s2 := log (EvGet m3u8_url) s1 in
  let ra := extract_audio (base_url_of m3u8_url) (text resp) w s2 in
  let rq := quality_loop m3u8_url (text resp) None quality_order w (snd ra) in
  let r3 := scan_mp4 None (split Re.newline (text resp)) w (snd rq) in
  http_head w (trace s) (simple_convert m3u8_url) = Some st -> st <> 200 ->
  http_get w (trace s1) m3u8_url = Some resp -> status_code resp = 200 ->
  fst ra = Ok a ->
  fst rq = Ok None ->
  fst r3 = Ok (Some v) ->
  get_video_and_audio_urls m3u8_url w s
  = (Ok (Some v, a, if truthy a then "hls_separate" else "hls_video_only"), snd r3)
  /\ exists line,
       In line (split Re.newline (text resp))
       /\ contains ".mp4" line = true /\ startswith "http" line = true
       /\ v = strip line.
Proof.
  intros s1 s2 ra rq r3 Hh Hst Hg H200 Ha Hq H3.
  destruct (scan_mp4_found w _ (snd rq) (snd r3) v (run_pair _ _ H3))
    as (line & t & I & C & P & V & _).
  split; [| exists line; auto].
  rewrite (run_to_video_loop w s m3u8_url st resp a Hh Hst Hg H200 Ha).
  fold s1 s2 ra. unfold try_except.
  rewrite (run_bind_ok _ _ w (snd ra) None (snd rq)) by (apply run_pair, Hq).
  cbn [truthy negb].
  rewrite (run_bind_ok _ _ w (snd rq) (Some v) (snd r3)) by (apply run_pair, H3).
  rewrite V, (strip_http_nonempty line P). reflexivity.
Qed.

Lemma C3_tier3_video_keeps_extracted_audio_witness :
  get_video_and_audio_urls Scenario.manifest_url Scenario.audio_and_mp4_world Scenario.start
  = (Ok (Some "https://v1.pinimg.com/videos/mc/expMp4/ab/x.mp4",
         Some "https://v1.pinimg.com/videos/mc/hls/ab/a.cmfa", "hls_separate"),
     mkState [EvHead "https://v1.pinimg.com/videos/mc/720p/ab/x.mp4";
              EvGet "https://v1.pinimg.com/videos/mc/hls/ab/x.m3u8";
              EvGet "https://v1.pinimg.com/videos/mc/hls/ab/x_audio.m3u8";
              EvHead "https://v1.pinimg.com/videos/mc/hls/ab/a.cmfa";
              EvHead "https://v1.pinimg.com/videos/mc/expMp4/ab/x.mp4"] ∅).
Proof.
  refine (proj1 (C3_tier3_video_keeps_extracted_audio
                   Scenario.audio_and_mp4_world Scenario.start Scenario.manifest_url
                   404 (mkResponse 200 Scenario.audio_and_mp4_body)
                   (Some "https://v1.pinimg.com/videos/mc/hls/ab/a.cmfa")
                   "https://v1.pinimg.com/videos/mc/expMp4/ab/x.mp4"
                   _ _ _ _ _ _ _));
    solve [reflexivity | vm_compute; reflexivity | discriminate].
Defined.

(** C3, as stated, fails: Tier 2 produces no video URL, the brute-force
    scan finds a line that answers 200, and the triple returned has the
    audio URL the audio extraction found, not an absent one. *)
Lemma C3_counterexample :
  let s3 := mkState [EvHead "https://v1.pinimg.com/videos/mc/720p/ab/x.mp4";
                     EvGet "https://v1.pinimg.com/videos/mc/hls/ab/x.m3u8";
                     EvGet "https://v1.pinimg.com/videos/mc/hls/ab/x_audio.m3u8";
                     EvHead "https://v1.pinimg.com/videos/mc/hls/ab/a.cmfa"] ∅ in
  quality_loop Scenario.manifest_url Scenario.audio_and_mp4_body None quality_order
    Scenario.audio_and_mp4_world s3 = (Ok None, s3)
  /\ fst (scan_mp4 None (split Re.newline Scenario.audio_and_mp4_body)
            Scenario.audio_and_mp4_world s3)
     = Ok (Some "https://v1.pinimg.com/videos/mc/expMp4/ab/x.mp4")
  /\ fst (get_video_and_audio_urls Scenario.manifest_url
            Scenario.audio_and_mp4_world Scenario.start)
     = Ok (Some "https://v1.pinimg.com/videos/mc/expMp4/ab/x.mp4",
           Some "https://v1.pinimg.com/videos/mc/hls/ab/a.cmfa", "hls_separate")
  /\ (forall video_url method,
        fst (get_video_and_audio_urls Scenario.manifest_url
               Scenario.audio_and_mp4_world Scenario.start)
        <> Ok (video_url, None, method)).
Proof.
  repeat split; try (vm_compute; reflexivity).
  intros video_url method. rewrite audio_and_mp4_run. cbn [fst]. congruence.
Qed.

Example pin_locate :
  fst (locate_streams Scenario.pin_page_url "out" Scenario.mux_fails_world Scenario.start)
  = Ok (Scenario.video_segment, Some Scenario.audio_segment,
        mkMetadata None None [], "2024-05-01T10-20-30").
Proof. vm_compute. reflexivity. Qed.

Example pin_mux_fails_run :
  download_pinterest_video Scenario.pin_page_url "out" Scenario.mux_fails_world Scenario.start
  = (Ok (mkResult "out/2024-05-01T10-20-30_video.mp4" (mkMetadata None None [])),
     mkState
       [EvGet "https://www.pinterest.com/pin/1/";
        EvHead "https://v1.pinimg.com/videos/mc/720p/ab/x.mp4";
        EvGet "https://v1.pinimg.com/videos/mc/hls/ab/x.m3u8";
        EvGet "https://v1.pinimg.com/videos/mc/hls/ab/x_audio.m3u8";
        EvHead "https://v1.pinimg.com/videos/mc/hls/ab/a.cmfa";
        EvGet "https://v1.pinimg.com/videos/mc/hls/ab/x_720w.m3u8";
        EvHead "https://v1.pinimg.com/videos/mc/hls/ab/v.cmfv";
        EvMakedirs "out"; EvNow;
        EvStream "https://v1.pinimg.com/videos/mc/hls/ab/v.cmfv";
        EvOpen "out/2024-05-01T10-20-30_video.mp4";
        EvStream "https://v1.pinimg.com/videos/mc/hls/ab/a.cmfa";
        EvOpen "out/2024-05-01T10-20-30_audio.mp4";
        EvRun ["ffmpeg"; "-version"];
        EvRun (ffmpeg_cmd "out/2024-05-01T10-20-30_video.mp4"
                 "out/2024-05-01T10-20-30_audio.mp4" "out/2024-05-01T10-20-30.mp4")]
       (<["out/2024-05-01T10-20-30_audio.mp4" := "AUDIO"]>
          (<["out/2024-05-01T10-20-30_video.mp4" := "VIDEO"]> ∅))).
Proof. vm_compute. reflexivity. Qed.

(* ================================================================= *)
(** ** The metadata extractor                                           *)
(* ================================================================= *)

(** C9.  In a document whose [og:title] query gives no content (no such
    element, or one without content) and whose [twitter:title] query
    gives an element with content, the title is that content: the title
    element is not what the title comes from, whatever it holds. *)
Theorem C9_title_falls_back_to_twitter (soup : Soup) (twitter_title : Tag) (c : string) :
  (forall og_title, soup_find soup "meta" [("property", "og:title")] = Some og_title ->
                    truthy (tag_get og_title "content") = false) ->
  soup_find soup "meta" [("name", "twitter:title")] = Some twitter_title ->
  tag_get twitter_title "content" = Some c ->
  c <> "" ->
  title (extract_pinterest_metadata soup) = Some c.
Proof.
  intros Hog Htw Hc Hne.
  unfold extract_pinterest_metadata. cbn [title].
  assert (O : content_of (soup_find soup "meta" [("property", "og:title")]) = None).
  { unfold content_of.
    destruct (soup_find soup "meta" [("property", "og:title")]) as [og|]; [| reflexivity].
    now rewrite (Hog og eq_refl). }
  rewrite O. cbn [truthy negb].
  rewrite Htw. unfold content_of. rewrite Hc.
  destruct c as [|x c]; [congruence |]. reflexivity.
Qed.

Lemma C9_title_falls_back_to_twitter_witness :
  title (extract_pinterest_metadata Scenario.twitter_soup) = Some "Pin title".
Proof.
  apply (C9_title_falls_back_to_twitter Scenario.twitter_soup
           (Scenario.element [("name", "twitter:title"); ("content", "Pin title")] "")
           "Pin title");
    [intros og H; vm_compute in H; discriminate
    | reflexivity | reflexivity | discriminate].
Defined.

(* ================================================================= *)
(** ** The fetcher                                                      *)
(* ================================================================= *)

(** Chunks without a byte leave the file and the count as they are. *)
Lemma write_chunks_no_bytes (filename : string) (data_chunks : list string) (n : Z)
    (w : World) (s : State) :
  no_bytes data_chunks = true ->
  write_chunks filename data_chunks false n w s = (Ok n, s).
Proof.
  induction data_chunks as [|data rest IH]; intros H; [reflexivity |].
  cbn [no_bytes forallb] in H. apply andb_true_iff in H as [Hd Hr].
  apply String.eqb_eq in Hd. subst data. cbn [write_chunks]. apply IH, Hr.
Qed.

(** Writing the chunks keeps the file there, changes no other file and
    issues nothing. *)
Lemma write_chunks_files (filename : string) (data_chunks : list string) (b : bool)
    (n : Z) (w : World) (s : State) :
  let r := write_chunks filename data_chunks b n w s in
  trace (snd r) = trace s
  /\ (is_Some (files s !! filename) -> is_Some (files (snd r) !! filename))
  /\ (forall other, other <> filename -> files (snd r) !! other = files s !! other).
Proof.
  revert n s. induction data_chunks as [|data rest IH]; intros n s.
  - cbn [write_chunks]. destruct b; cbn; auto.
  - destruct data as [|x data].
    + apply IH.
    + set (s1 := mkState (trace s)
                   (<[filename := default EmptyString (files s !! filename)
                                  +:+ String x data]> (files s))).
      change (write_chunks filename (String x data :: rest) b n w s)
        with (write_chunks filename rest b
                (n + Z.of_nat (String.length (String x data))) w s1).
      destruct (IH (n + Z.of_nat (String.length (String x data))) s1) as (T & K & O).
      cbv zeta. split; [exact T |]. split.
      * intros _. apply K. subst s1. cbn [files]. rewrite lookup_insert_eq. eauto.
      * intros other Hne. rewrite (O other Hne). subst s1. cbn [files].
        now rewrite lookup_insert_ne by congruence.
Qed.

(** A download that reports success has left a file at its destination. *)
Lemma download_file_true (url filename : string) (w : World) (s : State) :
  fst (download_file url filename w s) = Ok true ->
  is_Some (files (snd (download_file url filename w s)) !! filename).
Proof.
  remember (download_file url filename w s) as r eqn:E.
  unfold download_file, try_except in E. rewrite run_bind in E.
  destruct (requests_get_stream url w s) as [[resp|e] s1]; [| subst r; discriminate].
  destruct (negb (stream_status resp =? 200)); [subst r; discriminate |].
  rewrite run_bind in E.
  destruct (int_content_length (content_length resp) w s1) as [[sz|e] s2];
    [| subst r; discriminate].
  rewrite run_bind in E. unfold open_wb at 1 in E.
  destruct (fs_open_ok w (trace s2) filename); [| subst r; discriminate].
  rewrite run_bind in E.
  set (s3 := mkState _ _) in E.
  pose proof (write_chunks_files filename (chunks resp) (stream_breaks resp) 0 w s3)
    as (_ & K & _).
  destruct (write_chunks filename (chunks resp) (stream_breaks resp) 0 w s3)
    as [[n|e] s4]; [| subst r; discriminate].
  destruct (n =? 0).
  - rewrite run_bind in E.
    destruct (os_remove filename w s4) as [[u|e] s5]; subst r; discriminate.
  - subst r. intros _. cbn [snd] in *. apply K. subst s3. cbn [files].
    rewrite lookup_insert_eq. eauto.
Qed.

Section Keeps.

Context {A B : Type} (w : World) (path : string).

Lemma keeps_ret (a : A) : keeps w path (ret a).
Proof. intros s. reflexivity. Qed.

Lemma keeps_raise (e : string) : keeps w path (raise (A := A) e).
Proof. intros s. reflexivity. Qed.

Lemma keeps_bind (m : M A) (k : A -> M B) :
  keeps w path m -> (forall a, keeps w path (k a)) -> keeps w path (bind m k).
Proof.
  intros Hm Hk s. unfold bind. specialize (Hm s).
  destruct (m w s) as [[a|e] s1]; cbn [snd] in Hm.
  - now rewrite Hk.
  - exact Hm.
Qed.

Lemma keeps_try (m : M A) (h : string -> M A) :
  keeps w path m -> (forall e, keeps w path (h e)) -> keeps w path (try_except m h).
Proof.
  intros Hm Hh s. unfold try_except. specialize (Hm s).
  destruct (m w s) as [[a|e] s1]; cbn [snd] in Hm.
  - exact Hm.
  - now rewrite Hh.
Qed.

End Keeps.

Lemma keeps_requests_head w path url : keeps w path (requests_head url).
Proof. intros s. unfold requests_head. now destruct (http_head w (trace s) url). Qed.

Lemma keeps_requests_get w path url : keeps w path (requests_get url).
Proof. intros s. unfold requests_get. now destruct (http_get w (trace s) url). Qed.

Lemma keeps_requests_get_stream w path url : keeps w path (requests_get_stream url).
Proof.
  intros s. unfold requests_get_stream. now destruct (http_stream w (trace s) url).
Qed.

Lemma keeps_open_wb w path f : path <> f -> keeps w path (open_wb f).
Proof.
  intros Hne s. unfold open_wb.
  destruct (fs_open_ok w (trace s) f); cbn [snd files log]; [| reflexivity].
  now rewrite lookup_insert_ne by congruence.
Qed.

Lemma keeps_file_write w path f data : path <> f -> keeps w path (file_write f data).
Proof.
  intros Hne s. unfold file_write. cbn [snd files].
  now rewrite lookup_insert_ne by congruence.
Qed.

Lemma keeps_os_remove w path f : path <> f -> keeps w path (os_remove f).
Proof.
  intros Hne s. unfold os_remove.
  destruct (files s !! f); cbn [snd files log]; [| reflexivity].
  now rewrite lookup_delete_ne by congruence.
Qed.

Lemma keeps_subprocess_run w path cmd :
  tool_keeps w path -> keeps w path (subprocess_run cmd).
Proof.
  intros Ht s. unfold subprocess_run.
  destruct (proc_run w (trace s) cmd); cbn [snd files log]; [apply Ht | reflexivity].
Qed.

Lemma keeps_int_content_length w path h : keeps w path (int_content_length h).
Proof. intros s. now destruct h as [[n|]|]. Qed.

(** Goes through a program, as [extends_step] does, for the files. *)
Ltac keeps_step :=
  first
    [ apply keeps_ret
    | apply keeps_raise
    | apply keeps_requests_head
    | apply keeps_requests_get
    | apply keeps_requests_get_stream
    | apply keeps_int_content_length
    | apply keeps_open_wb; congruence
    | apply keeps_file_write; congruence
    | apply keeps_os_remove; congruence
    | apply keeps_subprocess_run; assumption
    | assumption
    | apply keeps_bind; [| intros ?]
    | apply keeps_try; [| intros ?]
    | match goal with
      | |- keeps _ _ (if ?b then _ else _) => destruct b
      | |- keeps _ _ (match ?x with _ => _ end) => destruct x
      end ].

Ltac keeps_tac := repeat keeps_step.

Lemma keeps_write_chunks w path f data_chunks b n :
  path <> f -> keeps w path (write_chunks f data_chunks b n).
Proof.
  intros Hne. revert n.
  induction data_chunks as [|data rest IH]; intros n; cbn [write_chunks]; keeps_tac;
    apply IH.
Qed.

(** A download changes no file but its destination. *)
Lemma download_file_other (url filename other : string) (w : World) (s : State) :
  other <> filename ->
  files (snd (download_file url filename w s)) !! other = files s !! other.
Proof.
  intros Hne. revert s. fold (keeps w other (download_file url filename)).
  unfold download_file. keeps_tac. apply keeps_write_chunks, Hne.
Qed.

(** The whole run of a download whose body comes with 200 and without a
    byte. *)
Lemma download_file_empty_run (w : World) (s : State) (url filename : string)
    (response : StreamResponse) :
  http_stream w (trace s) url = Some response ->
  stream_status response = 200 ->
  no_bytes (chunks response) = true ->
  stream_breaks response = false ->
  download_file url filename w s
  = (Ok false,
     match content_length response with
     | Some None => log (EvStream url) s
     | _ =>
         if fs_open_ok w (trace s ++ [EvStream url]) filename
         then mkState (trace s ++ [EvStream url; EvOpen filename; EvRemove filename])
                (delete filename (files s))
         else mkState (trace s ++ [EvStream url; EvOpen filename]) (files s)
     end).
Proof.
  intros Hs H200 Hz Hb.
  assert (G : forall n : Z,
    try_except
      (file_size <- ret n ;;
       open_wb filename ;;;
       bytes_written <- write_chunks filename (chunks response)
                          (stream_breaks response) 0 ;;
       if bytes_written =? 0 then os_remove filename ;;; ret false else ret true)
      (fun _ => ret false) w (log (EvStream url) s)
    = (Ok false,
       if fs_open_ok w (trace s ++ [EvStream url]) filename
       then mkState (trace s ++ [EvStream url; EvOpen filename; EvRemove filename])
              (delete filename (files s))
       else mkState (trace s ++ [EvStream url; EvOpen filename]) (files s))).
  { intros n. unfold try_except. rewrite (run_bind_ok _ _ _ _ n _ eq_refl).
    rewrite run_bind. unfold open_wb. cbn [trace log files].
    destruct (fs_open_ok w (trace s ++ [EvStream url]) filename).
    - rewrite run_bind, Hb, (write_chunks_no_bytes _ _ _ _ _ Hz).
      cbn [Z.eqb]. rewrite run_bind. unfold os_remove. cbn [files trace].
      rewrite lookup_insert_eq. cbn [ret].
      rewrite delete_insert_eq, <- !app_assoc. reflexivity.
    - unfold log. cbn [ret trace files]. rewrite <- app_assoc. reflexivity. }
  unfold download_file.
  unfold try_except at 1. rewrite run_bind.
  unfold requests_get_stream at 1. rewrite Hs, H200. cbn [Z.eqb Pos.eqb negb].
  destruct (content_length response) as [[sz|]|].
  - exact (G sz).
  - reflexivity.
  - exact (G 0).
Qed.

(** C5, as the code has it.  When the response comes with status 200 and
    the streamed body ends, without raising, with no byte written,
    [download_file] returns [False]; and when it has created the
    destination file (the Content-Length header read as a number, the
    file opened), it removes it again: no file is left at the
    destination. *)
Theorem C5_empty_download_is_removed (w : World) (s : State) (url filename : string)
    (response : StreamResponse) :
  http_stream w (trace s) url = Some response ->
  stream_status response = 200 ->
  no_bytes (chunks response) = true ->
  stream_breaks response = false ->
  fst (download_file url filename w s) = Ok false
  /\ (content_length response <> Some None ->
      fs_open_ok w (trace s ++ [EvStream url]) filename = true ->
      snd (download_file url filename w s)
      = mkState (trace s ++ [EvStream url; EvOpen filename; EvRemove filename])
          (delete filename (files s))
      /\ files (snd (download_file url filename w s)) !! filename = None).
Proof.
  intros Hs H200 Hz Hb.
  rewrite (download_file_empty_run w s url filename response Hs H200 Hz Hb).
  cbn [fst snd]. split; [reflexivity |].
  intros Hcl Hopen. rewrite Hopen.
  destruct (content_length response) as [[sz|]|]; try congruence;
    (split; [reflexivity | cbn [files]; apply lookup_delete_eq]).
Qed.

Lemma C5_empty_download_is_removed_witness :
  fst (download_file "https://v1.pinimg.com/videos/mc/expMp4/ab/x.mp4" "out/x.mp4"
         Scenario.empty_body_world Scenario.start) = Ok false
  /\ files (snd (download_file "https://v1.pinimg.com/videos/mc/expMp4/ab/x.mp4" "out/x.mp4"
                   Scenario.empty_body_world Scenario.start)) !! "out/x.mp4" = None.
Proof.
  destruct (C5_empty_download_is_removed Scenario.empty_body_world Scenario.start
              "https://v1.pinimg.com/videos/mc/expMp4/ab/x.mp4" "out/x.mp4"
              (mkStream 200 (Some (Some 0)) [""] false)
              eq_refl eq_refl eq_refl eq_refl) as [R F].
  split; [exact R |].
  apply F; [discriminate | reflexivity].
Defined.

(** C5, as stated, fails: the response comes with status 200, no byte is
    written and the stream raises; [download_file] returns [False] but
    the empty file it created is still at the destination, and no
    removal was issued. *)
Lemma C5_counterexample :
  let w := Scenario.one_stream_world (mkStream 200 None [] true) in
  http_stream w [] Scenario.file_url = Some (mkStream 200 None [] true)
  /\ no_bytes (chunks (mkStream 200 None [] true)) = true
  /\ download_file Scenario.file_url "out/x.mp4" w Scenario.start
     = (Ok false,
        mkState [EvStream Scenario.file_url; EvOpen "out/x.mp4"]
          (<["out/x.mp4" := ""]> ∅))
  /\ files (snd (download_file Scenario.file_url "out/x.mp4" w Scenario.start))
     !! "out/x.mp4" = Some "".
Proof. repeat split; vm_compute; reflexivity. Qed.

(* ================================================================= *)
(** ** The muxer                                                        *)
(* ================================================================= *)

(** The whole run of a merge whose tool is there and fails at the mux. *)
Lemma merge_video_audio_failed_run (w : World) (s : State)
    (video_file audio_file output_file : string) (outcome : option Z) :
  let probe := ["ffmpeg"; "-version"] in
  let cmd := ffmpeg_cmd video_file audio_file output_file in
  let s1 := mkState (trace s ++ [EvRun probe]) (proc_files w (trace s) probe (files s)) in
  proc_run w (trace s) probe = Some 0 ->
  proc_run w (trace s1) cmd = outcome ->
  outcome <> Some 0 ->
  merge_video_audio video_file audio_file output_file w s
  = (Ok false,
     mkState (trace s ++ [EvRun probe; EvRun cmd])
       match outcome with
       | Some _ => proc_files w (trace s1) cmd (files s1)
       | None => files s1
       end).
Proof.
  intros probe cmd s1 Hp Hm Hnz.
  unfold merge_video_audio, try_except. rewrite run_bind.
  unfold subprocess_run at 1. fold probe. rewrite Hp. cbn [Z.eqb negb].
  fold s1. rewrite run_bind. unfold subprocess_run at 1. fold cmd. rewrite Hm.
  destruct outcome as [rc|].
  - destruct (rc =? 0) eqn:E; [apply Z.eqb_eq in E; congruence |].
    subst s1. cbn [ret trace files]. now rewrite <- app_assoc.
  - subst s1. unfold log. cbn [ret trace files]. now rewrite <- app_assoc.
Qed.

(** C6.  When the tool answers its version probe and its mux run exits
    with a nonzero code or raises, [merge_video_audio] returns [False]
    and has issued the two tool runs and nothing else, no removal; with
    a tool that itself leaves the two input files alone, both are on
    disk as they were. *)
Theorem C6_failed_mux_keeps_inputs (w : World) (s : State)
    (video_file audio_file output_file : string) (outcome : option Z) :
  let probe := ["ffmpeg"; "-version"] in
  let cmd := ffmpeg_cmd video_file audio_file output_file in
  let s1 := mkState (trace s ++ [EvRun probe]) (proc_files w (trace s) probe (files s)) in
  let r := merge_video_audio video_file audio_file output_file w s in
  proc_run w (trace s) probe = Some 0 ->
  proc_run w (trace s1) cmd = outcome ->
  outcome <> Some 0 ->
  tool_keeps w video_file ->
  tool_keeps w audio_file ->
  fst r = Ok false
  /\ trace (snd r) = trace s ++ [EvRun probe; EvRun cmd]
  /\ files (snd r) !! video_file = files s !! video_file
  /\ files (snd r) !! audio_file = files s !! audio_file.
Proof.
  intros probe cmd s1 r Hp Hm Hnz Kv Ka. subst r.
  rewrite (merge_video_audio_failed_run w s video_file audio_file output_file
             outcome Hp Hm Hnz).
  cbn [fst snd trace files]. repeat split.
  - destruct outcome; cbn [files]; now rewrite ?Kv.
  - destruct outcome; cbn [files]; now rewrite ?Ka.
Qed.

Lemma C6_failed_mux_keeps_inputs_witness :
  let r := merge_video_audio "out/v.mp4" "out/a.mp4" "out/final.mp4"
             (Scenario.tool_only_world Scenario.failing_tool) Scenario.two_files in
  fst r = Ok false
  /\ trace (snd r) = [EvRun ["ffmpeg"; "-version"];
                      EvRun (ffmpeg_cmd "out/v.mp4" "out/a.mp4" "out/final.mp4")]
  /\ files (snd r) !! "out/v.mp4" = Some "VIDEO"
  /\ files (snd r) !! "out/a.mp4" = Some "AUDIO".
Proof.
  exact (C6_failed_mux_keeps_inputs (Scenario.tool_only_world Scenario.failing_tool)
           Scenario.two_files "out/v.mp4" "out/a.mp4" "out/final.mp4" (Some 1)
           eq_refl eq_refl ltac:(discriminate)
           (fun _ _ _ => eq_refl) (fun _ _ _ => eq_refl)).
Defined.

(* ================================================================= *)
(** ** The orchestrator                                                 *)
(* ================================================================= *)

Lemma startswith_slash_append (ts a b : string) :
  startswith "/" a = startswith "/" b ->
  startswith "/" (ts +:+ a) = startswith "/" (ts +:+ b).
Proof.
  intros H. destruct ts as [|c ts]; [exact H |].
  unfold startswith. cbn [String.append].
  now rewrite !prefix_cons, !prefix_nil_l.
Qed.

(** Two names made of the same timestamp and endings that differ, none
    starting with a slash, are joined to different paths. *)
Lemma path_join_differ (output_dir ts a b : string) :
  a <> b -> startswith "/" a = false -> startswith "/" b = false ->
  path_join output_dir (ts +:+ a) <> path_join output_dir (ts +:+ b).
Proof.
  intros Hab Ha Hb. unfold path_join.
  rewrite (startswith_slash_append ts a b) by congruence.
  assert (N : forall p : string, p +:+ ts +:+ a <> p +:+ ts +:+ b).
  { intros p H. apply String.app_inj, String.app_inj in H. congruence. }
  destruct (startswith "/" (ts +:+ b)); [apply (N "") |].
  destruct output_dir as [|c d]; [apply (N "") |].
  destruct (endswith "/" (String c d)); [apply N |].
  intros H. apply String.app_inj in H. exact (N "/" H).
Qed.

(** The two temporary files have different names. *)
Lemma video_audio_filenames_differ (output_dir ts : string) :
  path_join output_dir (ts +:+ "_video.mp4") <> path_join output_dir (ts +:+ "_audio.mp4").
Proof. apply path_join_differ; [discriminate | reflexivity | reflexivity]. Qed.

(** A merge that reports failure has left the audio file as it was,
    with a tool that itself leaves it alone. *)
Lemma merge_video_audio_false_keeps_audio (w : World) (s : State)
    (video_file audio_file output_file : string) :
  video_file <> audio_file ->
  tool_keeps w audio_file ->
  is_Some (files s !! audio_file) ->
  fst (merge_video_audio video_file audio_file output_file w s) = Ok false ->
  files (snd (merge_video_audio video_file audio_file output_file w s)) !! audio_file
  = files s !! audio_file.
Proof.
  intros Hne Kt [bytes Hb].
  remember (merge_video_audio video_file audio_file output_file w s) as r eqn:E.
  unfold merge_video_audio, try_except in E. rewrite run_bind in E.
  unfold subprocess_run at 1 in E.
  destruct (proc_run w (trace s) ["ffmpeg"; "-version"]) as [rc|];
    [| subst r; reflexivity].
  set (s1 := mkState _ _) in E.
  assert (F1 : files s1 !! audio_file = Some bytes)
    by (subst s1; cbn [files]; now rewrite Kt).
  destruct (negb (rc =? 0)); [subst r; cbn [snd ret]; congruence |].
  rewrite run_bind in E. unfold subprocess_run at 1 in E.
  destruct (proc_run w (trace s1) (ffmpeg_cmd video_file audio_file output_file)) as [rc2|];
    [| subst r; cbn [snd ret log files]; congruence].
  set (s2 := mkState _ _) in E.
  assert (F2 : files s2 !! audio_file = Some bytes)
    by (subst s2; cbn [files]; now rewrite Kt).
  destruct (rc2 =? 0); [| subst r; cbn [snd ret]; congruence].
  rewrite run_bind in E. unfold os_remove at 1 in E.
  destruct (files s2 !! video_file);
    [| subst r; cbn [snd ret log files]; congruence].
  rewrite run_bind in E. unfold os_remove at 1 in E. cbn [files] in E.
  rewrite lookup_delete_ne, F2 in E by exact Hne.
  subst r. cbn [fst ret]. discriminate.
Qed.

(** The orchestrator's run once the streams are located and an audio URL
    is there: the two-track path of [download_tracks]. *)
Lemma run_two_tracks (w : World) (s : State) (page_url output_dir : string)
    (video_url audio_url : string) (md : PageMetadata) (ts : string) :
  let located := locate_streams page_url output_dir w s in
  fst located = Ok (video_url, Some audio_url, md, ts) ->
  audio_url <> "" ->
  download_pinterest_video page_url output_dir w s
  = download_tracks video_url (Some audio_url) output_dir ts md w (snd located).
Proof.
  intros located H Hne. unfold download_pinterest_video.
  rewrite (run_bind_ok (locate_streams page_url output_dir) _ w s _ (snd located)
             (run_pair _ _ H)).
  reflexivity.
Qed.

(** C7.  When both temporary files have been downloaded and the merge
    fails, [download_pinterest_video] does not raise: it returns the
    name of the video temporary file as [filePath], and nothing is
    issued after the merge; the audio temporary file is left on disk,
    with a tool that itself leaves it alone. *)
Theorem C7_mux_failure_returns_video_temp (w : World) (s : State)
    (page_url output_dir video_url audio_url : string) (md : PageMetadata) (ts : string) :
  let located := locate_streams page_url output_dir w s in
  let video_filename := path_join output_dir (ts +:+ "_video.mp4") in
  let audio_filename := path_join output_dir (ts +:+ "_audio.mp4") in
  let final_filename := path_join output_dir (ts +:+ ".mp4") in
  let rv := download_file video_url video_filename w (snd located) in
  let ra := download_file audio_url audio_filename w (snd rv) in
  let rm := merge_video_audio video_filename audio_filename final_filename w (snd ra) in
  fst located = Ok (video_url, Some audio_url, md, ts) ->
  audio_url <> "" ->
  fst rv = Ok true ->
  fst ra = Ok true ->
  fst rm = Ok false ->
  tool_keeps w audio_filename ->
  download_pinterest_video page_url output_dir w s
  = (Ok (mkResult video_filename md), snd rm)
  /\ video_filename <> final_filename
  /\ is_Some (files (snd rm) !! audio_filename).
Proof.
  intros located video_filename audio_filename final_filename rv ra rm
    Hloc Hne Hv Ha Hm Kt.
  split; [| split].
  - rewrite (run_two_tracks w s page_url output_dir video_url audio_url md ts Hloc Hne).
    fold located. unfold download_tracks.
    destruct audio_url as [|c a]; [congruence |].
    fold video_filename audio_filename final_filename.
    rewrite (run_bind_ok _ _ w (snd located) true (snd rv)) by (apply run_pair, Hv).
    cbn [negb].
    rewrite (run_bind_ok _ _ w (snd rv) true (snd ra)) by (apply run_pair, Ha).
    cbn [negb].
    rewrite (run_bind_ok _ _ w (snd ra) false (snd rm)) by (apply run_pair, Hm).
    reflexivity.
  - apply path_join_differ; [discriminate | reflexivity | reflexivity].
  - assert (Fa : is_Some (files (snd ra) !! audio_filename))
      by (apply download_file_true, Ha).
    subst rm.
    rewrite (merge_video_audio_false_keeps_audio w (snd ra) video_filename
               audio_filename final_filename
               (video_audio_filenames_differ output_dir ts) Kt Fa Hm).
    exact Fa.
Qed.

Lemma C7_mux_failure_returns_video_temp_witness :
  fst (download_pinterest_video Scenario.pin_page_url "out"
         Scenario.mux_fails_world Scenario.start)
  = Ok (mkResult "out/2024-05-01T10-20-30_video.mp4" (mkMetadata None None []))
  /\ is_Some (files (snd (download_pinterest_video Scenario.pin_page_url "out"
                            Scenario.mux_fails_world Scenario.start))
              !! "out/2024-05-01T10-20-30_audio.mp4").
Proof.
  destruct (C7_mux_failure_returns_video_temp Scenario.mux_fails_world Scenario.start
              Scenario.pin_page_url "out" Scenario.video_segment Scenario.audio_segment
              (mkMetadata None None []) "2024-05-01T10-20-30"
              ltac:(vm_compute; reflexivity) ltac:(discriminate)
              ltac:(vm_compute; reflexivity) ltac:(vm_compute; reflexivity)
              ltac:(vm_compute; reflexivity) (fun _ _ _ => eq_refl))
    as (E & _ & F).
  rewrite E. split; [reflexivity | exact F].
Defined.

(** C8.  On the two-track path (an audio URL is there): when the video
    download succeeds and the audio download fails, the operation raises
    [Failed to download audio track] after having removed the video
    temporary file, which is no longer on disk; when the video download
    fails, the operation raises [Failed to download video track] in the
    state the video download left: nothing is removed and no request for
    the audio track is made. *)
Theorem C8_track_download_failures (w : World) (s : State)
    (page_url output_dir video_url audio_url : string) (md : PageMetadata) (ts : string) :
  let located := locate_streams page_url output_dir w s in
  let video_filename := path_join output_dir (ts +:+ "_video.mp4") in
  let audio_filename := path_join output_dir (ts +:+ "_audio.mp4") in
  let rv := download_file video_url video_filename w (snd located) in
  let ra := download_file audio_url audio_filename w (snd rv) in
  let r := download_pinterest_video page_url output_dir w s in
  fst located = Ok (video_url, Some audio_url, md, ts) ->
  audio_url <> "" ->
  (fst rv = Ok true -> fst ra = Ok false ->
   r = (Exn "Failed to download audio track",
        mkState (trace (snd ra) ++ [EvRemove video_filename])
          (delete video_filename (files (snd ra))))
   /\ files (snd r) !! video_filename = None)
  /\ (fst rv = Ok false ->
      r = (Exn "Failed to download video track", snd rv)).
Proof.
  intros located video_filename audio_filename rv ra r Hloc Hne.
  assert (R : r = download_tracks video_url (Some audio_url) output_dir ts md w (snd located))
    by (apply run_two_tracks; assumption).
  unfold download_tracks in R.
  destruct audio_url as [|c a]; [congruence |].
  fold video_filename audio_filename in R.
  split.
  - intros Hv Ha.
    rewrite (run_bind_ok _ _ w (snd located) true (snd rv)) in R by (apply run_pair, Hv).
    cbn [negb] in R.
    rewrite (run_bind_ok _ _ w (snd rv) false (snd ra)) in R by (apply run_pair, Ha).
    cbn [negb] in R. rewrite run_bind in R. unfold os_remove at 1 in R.
    assert (Fv : is_Some (files (snd ra) !! video_filename)).
    { subst ra. rewrite download_file_other by apply video_audio_filenames_differ.
      apply download_file_true, Hv. }
    destruct Fv as [bytes Fv]. rewrite Fv in R. cbn [raise] in R.
    rewrite R. split; [reflexivity |]. cbn [snd files]. apply lookup_delete_eq.
  - intros Hv.
    rewrite (run_bind_ok _ _ w (snd located) false (snd rv)) in R by (apply run_pair, Hv).
    exact R.
Qed.

Lemma C8_track_download_failures_witness :
  (fst (download_pinterest_video Scenario.pin_page_url "out"
          Scenario.audio_fails_world Scenario.start)
   = Exn "Failed to download audio track"
   /\ files (snd (download_pinterest_video Scenario.pin_page_url "out"
                    Scenario.audio_fails_world Scenario.start))
      !! "out/2024-05-01T10-20-30_video.mp4" = None)
  /\ fst (download_pinterest_video Scenario.pin_page_url "out"
            Scenario.video_fails_world Scenario.start)
     = Exn "Failed to download video track".
Proof.
  split.
  - destruct (C8_track_download_failures Scenario.audio_fails_world Scenario.start
                Scenario.pin_page_url "out" Scenario.video_segment Scenario.audio_segment
                (mkMetadata None None []) "2024-05-01T10-20-30"
                ltac:(vm_compute; reflexivity) ltac:(discriminate)) as [A _].
    destruct (A ltac:(vm_compute; reflexivity) ltac:(vm_compute; reflexivity)) as [E F].
    split; [rewrite E; reflexivity | exact F].
  - destruct (C8_track_download_failures Scenario.video_fails_world Scenario.start
                Scenario.pin_page_url "out" Scenario.video_segment Scenario.audio_segment
                (mkMetadata None None []) "2024-05-01T10-20-30"
                ltac:(vm_compute; reflexivity) ltac:(discriminate)) as [_ B].
    rewrite (B ltac:(vm_compute; reflexivity)). reflexivity.
Defined.

Example pin_video_fails_trace :
  trace (snd (download_pinterest_video Scenario.pin_page_url "out"
                Scenario.video_fails_world Scenario.start))
  = [EvGet "https://www.pinterest.com/pin/1/";
     EvHead "https://v1.pinimg.com/videos/mc/720p/ab/x.mp4";
     EvGet "https://v1.pinimg.com/videos/mc/hls/ab/x.m3u8";
     EvGet "https://v1.pinimg.com/videos/mc/hls/ab/x_audio.m3u8";
     EvHead "https://v1.pinimg.com/videos/mc/hls/ab/a.cmfa";
     EvGet "https://v1.pinimg.com/videos/mc/hls/ab/x_720w.m3u8";
     EvHead "https://v1.pinimg.com/videos/mc/hls/ab/v.cmfv";
     EvMakedirs "out"; EvNow;
     EvStream "https://v1.pinimg.com/videos/mc/hls/ab/v.cmfv"].
Proof. vm_compute. reflexivity. Qed.

(* ================================================================= *)
(** ** How the resolver cuts and rebuilds URLs                          *)
(* ================================================================= *)

Lemma contains_char_cons (sep c : ascii) (s : string) :
  contains (String sep "") (String c s)
  = Ascii.eqb c sep || contains (String sep "") s.
Proof.
  rewrite contains_cons, prefix_cons, prefix_nil_l.
  destruct (ascii_dec sep c) as [->|N].
  - now rewrite Ascii.eqb_refl.
  - destruct (Ascii.eqb c sep) eqn:E; [| reflexivity].
    apply Ascii.eqb_eq in E. congruence.
Qed.

Lemma contains_char_nil (sep : ascii) : contains (String sep "") "" = false.
Proof. reflexivity. Qed.

Lemma contains_char_app (sep : ascii) (a b : string) :
  contains (String sep "") (a +:+ b)
  = contains (String sep "") a || contains (String sep "") b.
Proof.
  induction a as [|c a IH]; [reflexivity |].
  cbn [String.append]. rewrite !contains_char_cons, IH. apply orb_assoc.
Qed.

Lemma split_no_sep (sep : ascii) (s : string) :
  contains (String sep "") s = false -> split sep s = [s].
Proof.
  induction s as [|c s IH]; intros H; [reflexivity |].
  rewrite contains_char_cons in H. apply orb_false_iff in H as [Hc Hs].
  cbn [split]. rewrite Hc, (IH Hs). reflexivity.
Qed.

Lemma split_with_sep (sep : ascii) (s : string) :
  contains (String sep "") s = true ->
  exists h x t, split sep s = h :: x :: t.
Proof.
  induction s as [|c s IH]; intros H; [discriminate |].
  rewrite contains_char_cons in H. cbn [split].
  destruct (contains (String sep "") s) eqn:Hs.
  - destruct (IH eq_refl) as (h & x & t & E). rewrite E.
    destruct (Ascii.eqb c sep); eauto.
  - rewrite orb_false_r in H. rewrite H, (split_no_sep _ _ Hs). eauto.
Qed.

Lemma split_last_cons (sep c : ascii) (s : string) :
  split_last sep (String c s)
  = if contains (String sep "") s then split_last sep s
    else if Ascii.eqb c sep then s else String c s.
Proof.
  unfold split_last. cbn [split].
  destruct (contains (String sep "") s) eqn:Hs.
  - destruct (split_with_sep _ _ Hs) as (h & x & t & E). rewrite E.
    destruct (Ascii.eqb c sep); reflexivity.
  - rewrite (split_no_sep _ _ Hs). destruct (Ascii.eqb c sep); reflexivity.
Qed.

(** X1.  A URL that holds a slash is cut without loss: the base URL of
    line 35 followed by the last segment of line 60 is the URL again. *)
Theorem X1_base_url_and_last_segment (m3u8_url : string) :
  contains "/" m3u8_url = true ->
  base_url_of m3u8_url +:+ split_last "/" m3u8_url = m3u8_url.
Proof.
  unfold base_url_of.
  induction m3u8_url as [|c s IH]; intros H; [discriminate |].
  rewrite split_last_cons. cbn [rsplit1_head].
  rewrite contains_char_cons in H.
  destruct (contains "/" s) eqn:Hs.
  - cbn [String.append]. f_equal. apply IH. reflexivity.
  - rewrite orb_false_r in H. rewrite H. apply Ascii.eqb_eq in H. now subst c.
Qed.

Lemma X1_base_url_and_last_segment_witness :
  base_url_of Scenario.manifest_url +:+ split_last "/" Scenario.manifest_url
  = Scenario.manifest_url.
Proof. exact (X1_base_url_and_last_segment Scenario.manifest_url eq_refl). Defined.

Lemma rsplit1_head_app (dir last : string) :
  contains "/" last = false -> rsplit1_head "/" (dir +:+ "/" +:+ last) = dir.
Proof.
  intros H. change ("/" +:+ last) with (String "/" last).
  induction dir as [|c d IH].
  - cbn [String.append rsplit1_head]. now rewrite H.
  - cbn [String.append rsplit1_head].
    rewrite contains_char_app, contains_char_cons, Ascii.eqb_refl.
    cbn [orb]. rewrite orb_true_r. now rewrite IH.
Qed.

Lemma split_last_app (dir last : string) :
  contains "/" last = false -> split_last "/" (dir +:+ "/" +:+ last) = last.
Proof.
  intros H. change ("/" +:+ last) with (String "/" last).
  induction dir as [|c d IH].
  - cbn [String.append]. rewrite split_last_cons, H. reflexivity.
  - cbn [String.append]. rewrite split_last_cons.
    rewrite contains_char_app, contains_char_cons, Ascii.eqb_refl.
    cbn [orb]. rewrite orb_true_r. exact IH.
Qed.

Lemma unbordered_dot_m3u8 : unbordered ".m3u8".
Proof.
  intros a b Hne H.
  destruct a as [|c1 [|c2 [|c3 [|c4 [|c5 a]]]]]; [congruence | | | | |]; prefix_cases H.
Qed.

(** X2.  For a manifest URL [dir/name.m3u8] whose name holds neither a
    slash nor [.m3u8], the sub-manifest of a quality is [dir/name_q.m3u8]:
    the quality goes in before the extension, in the same directory. *)
Theorem X2_stream_url_shape (dir name quality : string) :
  contains "/" name = false ->
  contains ".m3u8" name = false ->
  stream_url_of (dir +:+ "/" +:+ name +:+ ".m3u8") quality
  = dir +:+ "/" +:+ name +:+ "_" +:+ quality +:+ ".m3u8".
Proof.
  intros Hs Hm.
  assert (L : contains "/" (name +:+ ".m3u8") = false)
    by (rewrite contains_char_app, Hs; reflexivity).
  unfold stream_url_of, base_url_of.
  rewrite (rsplit1_head_app dir _ L), (split_last_app dir _ L).
  change (name +:+ ".m3u8") with (name +:+ ".m3u8" +:+ "").
  rewrite (replace_occurrence ".m3u8" (quality_marker quality))
    by (discriminate || apply unbordered_dot_m3u8).
  rewrite (replace_absent ".m3u8" (quality_marker quality)) by (discriminate || exact Hm).
  rewrite replace_empty by discriminate.
  unfold quality_marker. now rewrite append_nil_r, !append_assoc.
Qed.

Lemma X2_stream_url_shape_witness :
  stream_url_of "https://v1.pinimg.com/videos/mc/hls/ab/x.m3u8" "540w"
  = "https://v1.pinimg.com/videos/mc/hls/ab/x_540w.m3u8".
Proof.
  exact (X2_stream_url_shape "https://v1.pinimg.com/videos/mc/hls/ab" "x" "540w"
           eq_refl eq_refl).
Defined.

(* ================================================================= *)
(** ** What the regular expressions match                               *)
(* ================================================================= *)

Lemma drop_append (p r : string) : drop (String.length p) (p +:+ r) = r.
Proof. induction p as [|c p IH]; [now destruct r | exact IH]. Qed.

Lemma leftmost_sound (f : string -> option string) (s g : string) :
  Re.leftmost f s = Some g -> exists pre t, s = pre +:+ t /\ f t = Some g.
Proof.
  induction s as [|c s IH]; cbn [Re.leftmost]; intros H.
  - destruct (f "") eqn:E; [| discriminate]. exists "", "". split; [reflexivity | congruence].
  - destruct (f (String c s)) eqn:E.
    + exists "", (String c s). split; [reflexivity | congruence].
    + destruct (IH H) as (pre & t & -> & Ht). exists (String c pre), t. now split.
Qed.

Lemma leftmost_complete (f : string -> option string) (pre t g : string) :
  f t = Some g -> is_Some (Re.leftmost f (pre +:+ t)).
Proof.
  intros H. induction pre as [|c pre IH].
  - cbn [String.append]. destruct t; cbn [Re.leftmost]; rewrite H; eauto.
  - cbn [String.append Re.leftmost].
    destruct (f (String c (pre +:+ t))); [eauto | exact IH].
Qed.

Lemma span_sound (stop : ascii -> bool) (s g r : string) :
  Re.span stop s = (g, r) ->
  s = g +:+ r
  /\ (forall c, has_char c g = true -> stop c = false)
  /\ (forall c r', r = String c r' -> stop c = true).
Proof.
  revert g r. induction s as [|c s IH]; cbn [Re.span]; intros g r H.
  - inversion H; subst. repeat split; intros; discriminate.
  - destruct (stop c) eqn:E.
    + inversion H; subst. repeat split; [intros; discriminate |].
      intros c' r' Hr. inversion Hr; subst. exact E.
    + destruct (Re.span stop s) as [g' r'] eqn:S. inversion H; subst.
      destruct (IH g' r eq_refl) as (-> & Hg & Hr).
      repeat split; [| exact Hr].
      intros x Hx. cbn [has_char] in Hx. apply orb_true_iff in Hx as [Hx|Hx].
      * apply Ascii.eqb_eq in Hx. now subst x.
      * apply Hg, Hx.
Qed.

Lemma span_append (stop : ascii -> bool) (g : string) (c : ascii) (r : string) :
  (forall x, has_char x g = true -> stop x = false) -> stop c = true ->
  Re.span stop (g +:+ String c r) = (g, String c r).
Proof.
  intros Hg Hc. induction g as [|x g IH].
  - cbn [String.append Re.span]. now rewrite Hc.
  - cbn [String.append Re.span].
    rewrite (Hg x) by (cbn [has_char]; now rewrite Ascii.eqb_refl).
    rewrite IH; [reflexivity |].
    intros y Hy. apply Hg. cbn [has_char]. rewrite Hy. apply orb_true_r.
Qed.

Lemma no_dquote (g : string) :
  (forall c, has_char c g = true -> Re.is_dquote c = false) ->
  has_char Re.dquote g = false.
Proof.
  intros H. destruct (has_char Re.dquote g) eqn:E; [| reflexivity].
  specialize (H _ E). discriminate.
Qed.

Lemma quoted_after_sound (prefix t g : string) :
  Re.quoted_after prefix t = Some g ->
  has_char Re.dquote g = false
  /\ exists rest, t = prefix +:+ g +:+ String Re.dquote rest.
Proof.
  unfold Re.quoted_after. intros H.
  destruct (String.prefix prefix t) eqn:P; [| discriminate].
  destruct (prefix_split _ _ P) as [r ->]. rewrite drop_append in H.
  destruct (Re.span Re.is_dquote r) as [g' r'] eqn:S.
  destruct r' as [|c r']; [discriminate |]. inversion H; subst g'.
  destruct (span_sound _ _ _ _ S) as (-> & Hg & Hr).
  split; [apply no_dquote, Hg |].
  specialize (Hr c r' eq_refl). apply Ascii.eqb_eq in Hr. subst c.
  exists r'. reflexivity.
Qed.

Lemma quoted_after_complete (prefix g rest : string) :
  has_char Re.dquote g = false ->
  Re.quoted_after prefix (prefix +:+ g +:+ String Re.dquote rest) = Some g.
Proof.
  intros H. unfold Re.quoted_after. rewrite prefix_append, drop_append.
  rewrite span_append; [reflexivity | | reflexivity].
  intros x Hx. unfold Re.is_dquote. destruct (Ascii.eqb x Re.dquote) eqn:E; [| reflexivity].
  apply Ascii.eqb_eq in E. subst x. congruence.
Qed.

(** X3.  What the search for the audio sub-manifest returns is a piece of
    the manifest that stands between [URI=], a double quote, and the next
    double quote; it holds no double quote itself and ends in
    [_audio.m3u8]. *)
Theorem X3_audio_uri_is_a_quoted_match (playlist_content g : string) :
  Re.search_audio_uri playlist_content = Some g ->
  endswith "_audio.m3u8" g = true
  /\ has_char Re.dquote g = false
  /\ exists pre post,
       playlist_content
       = pre +:+ ("URI=" +:+ String Re.dquote "") +:+ g +:+ String Re.dquote post.
Proof.
  unfold Re.search_audio_uri. intros H.
  destruct (leftmost_sound _ _ _ H) as (pre & t & -> & Ht).
  destruct (Re.quoted_after ("URI=" +:+ String Re.dquote "") t) as [g'|] eqn:Q;
    [| discriminate].
  destruct (endswith "_audio.m3u8" g') eqn:E; [| discriminate].
  inversion Ht; subst g'.
  destruct (quoted_after_sound _ _ _ Q) as (Hq & rest & ->).
  repeat split; auto. exists pre, rest. reflexivity.
Qed.

Lemma X3_audio_uri_is_a_quoted_match_witness :
  endswith "_audio.m3u8" "x_audio.m3u8" = true
  /\ has_char Re.dquote "x_audio.m3u8" = false
  /\ exists pre post,
       Scenario.audio_and_mp4_body
       = pre +:+ ("URI=" +:+ String Re.dquote "") +:+ "x_audio.m3u8"
         +:+ String Re.dquote post.
Proof.
  exact (X3_audio_uri_is_a_quoted_match Scenario.audio_and_mp4_body "x_audio.m3u8"
           eq_refl).
Defined.

(** X4.  The search finds an audio sub-manifest whenever the manifest
    holds one: a quoted URI without a double quote inside that ends in
    [_audio.m3u8], whatever stands before and after it. *)
Theorem X4_audio_uri_is_found (pre g post : string) :
  has_char Re.dquote g = false ->
  endswith "_audio.m3u8" g = true ->
  is_Some (Re.search_audio_uri
             (pre +:+ ("URI=" +:+ String Re.dquote "") +:+ g +:+ String Re.dquote post)).
Proof.
  intros Hq He. unfold Re.search_audio_uri.
  apply (leftmost_complete _ pre _ g).
  rewrite quoted_after_complete by exact Hq. now rewrite He.
Qed.

Lemma X4_audio_uri_is_found_witness :
  is_Some (Re.search_audio_uri
             ("#EXT-X-MEDIA:" +:+ ("URI=" +:+ String Re.dquote "") +:+ "x_audio.m3u8"
              +:+ String Re.dquote ",TYPE=AUDIO")).
Proof.
  exact (X4_audio_uri_is_found "#EXT-X-MEDIA:" "x_audio.m3u8" ",TYPE=AUDIO"
           eq_refl eq_refl).
Defined.

Lemma lazy_to_amp_sound (s g : string) :
  Re.lazy_to_amp s = Some g ->
  has_char "&" g = false /\ has_char Re.newline g = false
  /\ exists post, s = g +:+ String "&" post.
Proof.
  revert g. induction s as [|c s IH]; cbn [Re.lazy_to_amp]; intros g H; [discriminate |].
  destruct (Ascii.eqb c "&") eqn:Ea.
  - inversion H; subst. apply Ascii.eqb_eq in Ea. subst c.
    repeat split. exists s. reflexivity.
  - destruct (Ascii.eqb c Re.newline) eqn:En; [discriminate |].
    destruct (Re.lazy_to_amp s) as [g'|]; [| discriminate]. inversion H; subst.
    destruct (IH g' eq_refl) as (Ha & Hn & post & ->).
    cbn [has_char]. rewrite Ea, En, Ha, Hn. repeat split. exists post. reflexivity.
Qed.

(** X5.  The page URL taken from a short link's alternate link stands in
    the href between [url=] and the next ampersand, and holds neither an
    ampersand nor a newline. *)
Theorem X5_url_param_is_up_to_ampersand (href_link g : string) :
  Re.search_url_param href_link = Some g ->
  has_char "&" g = false
  /\ has_char Re.newline g = false
  /\ exists pre post, href_link = pre +:+ "url=" +:+ g +:+ String "&" post.
Proof.
  unfold Re.search_url_param. intros H.
  destruct (leftmost_sound _ _ _ H) as (pre & t & -> & Ht).
  destruct (String.prefix "url=" t) eqn:P; [| discriminate].
  destruct (prefix_split _ _ P) as [r ->].
  change 4%nat with (String.length "url=") in Ht. rewrite drop_append in Ht.
  destruct (lazy_to_amp_sound _ _ Ht) as (Ha & Hn & post & ->).
  repeat split; auto. exists pre, post. reflexivity.
Qed.

Lemma X5_url_param_is_up_to_ampersand_witness :
  has_char "&" "https://www.pinterest.com/pin/1/" = false
  /\ has_char Re.newline "https://www.pinterest.com/pin/1/" = false
  /\ exists pre post,
       "pinterest://pin/1?url=https://www.pinterest.com/pin/1/&m=1"
       = pre +:+ "url=" +:+ "https://www.pinterest.com/pin/1/" +:+ String "&" post.
Proof.
  exact (X5_url_param_is_up_to_ampersand
           "pinterest://pin/1?url=https://www.pinterest.com/pin/1/&m=1"
           "https://www.pinterest.com/pin/1/" eq_refl).
Defined.

Lemma endswith_append (suf x : string) : endswith suf (x +:+ suf) = true.
Proof.
  induction x as [|c x IH].
  - cbn [String.append]. destruct suf; cbn [endswith]; now rewrite String.eqb_refl.
  - cbn [String.append endswith]. rewrite IH. now destruct (String.eqb _ _).
Qed.

Lemma longest_ending_sound (suf r p : string) :
  Re.longest_ending suf r = Some p ->
  exists body rest, p = body +:+ suf /\ r = p +:+ rest.
Proof.
  revert p. induction r as [|c r IH]; cbn [Re.longest_ending]; intros p H.
  - destruct (String.eqb suf "") eqn:E; [| discriminate].
    apply String.eqb_eq in E. inversion H; subst. exists "", "". now split.
  - destruct (Re.longest_ending suf r) as [p'|].
    + inversion H; subst. destruct (IH p' eq_refl) as (body & rest & -> & ->).
      exists (String c body), rest. now split.
    + destruct (String.prefix suf (String c r)) eqn:P; [| discriminate].
      inversion H; subst. destruct (prefix_split _ _ P) as [rest E].
      exists "", rest. now split.
Qed.

(** X6.  A URL found on the page by one of the first two patterns is a
    piece of the page text that starts with the host prefix and ends in
    the extension looked for; so what the [.m3u8] pattern finds is always
    taken as a playlist at line 271. *)
Theorem X6_pattern_url_shape (prefix suf page_text u : string) :
  Re.first_url_with prefix suf page_text = Some u ->
  startswith prefix u = true
  /\ endswith suf u = true
  /\ exists pre post, page_text = pre +:+ u +:+ post.
Proof.
  unfold Re.first_url_with. intros H.
  destruct (leftmost_sound _ _ _ H) as (pre & t & -> & Ht).
  destruct (String.prefix prefix t) eqn:P; [| discriminate].
  destruct (prefix_split _ _ P) as [r ->]. rewrite drop_append in Ht.
  destruct (Re.span Re.is_quote r) as [run rrest] eqn:S. cbn [fst] in Ht.
  destruct (Re.longest_ending suf run) as [p|] eqn:L; [| discriminate].
  inversion Ht; subst u.
  destruct (longest_ending_sound _ _ _ L) as (body & rest & -> & Hrun).
  destruct (span_sound _ _ _ _ S) as (-> & _ & _). subst run.
  split; [apply prefix_append |]. split.
  - rewrite <- append_assoc. apply endswith_append.
  - exists pre, (rest +:+ rrest). now rewrite !append_assoc.
Qed.

Lemma X6_pattern_url_shape_witness :
  startswith "https://v1.pinimg.com/videos/"
    "https://v1.pinimg.com/videos/mc/hls/ab/x.m3u8" = true
  /\ endswith ".m3u8" "https://v1.pinimg.com/videos/mc/hls/ab/x.m3u8" = true
  /\ exists pre post,
       "{src:'https://v1.pinimg.com/videos/mc/hls/ab/x.m3u8',w:1}"
       = pre +:+ "https://v1.pinimg.com/videos/mc/hls/ab/x.m3u8" +:+ post.
Proof.
  exact (X6_pattern_url_shape "https://v1.pinimg.com/videos/" ".m3u8"
           "{src:'https://v1.pinimg.com/videos/mc/hls/ab/x.m3u8',w:1}"
           "https://v1.pinimg.com/videos/mc/hls/ab/x.m3u8" eq_refl).
Defined.

(* ================================================================= *)
(** ** More on the manifest resolver                                    *)
(* ================================================================= *)

(** X7.  When Tier 1 has not answered 200 and the fetch of the manifest
    raises or answers something else than 200, the resolver returns no
    URL and the method [failed] after these two requests and no other. *)
Theorem X7_manifest_fetch_failure (w : World) (s : State) (m3u8_url : string)
    (st : Z) (outcome : option Response) :
  http_head w (trace s) (simple_convert m3u8_url) = Some st ->
  st <> 200 ->
  http_get w (trace s ++ [EvHead (simple_convert m3u8_url)]) m3u8_url = outcome ->
  (forall resp, outcome = Some resp -> status_code resp <> 200) ->
  get_video_and_audio_urls m3u8_url w s
  = (Ok (None, None, "failed"),
     mkState (trace s ++ [EvHead (simple_convert m3u8_url); EvGet m3u8_url]) (files s)).
Proof.
  intros Hh Hst Hg Hne.
  unfold get_video_and_audio_urls, try_except.
  rewrite (run_bind_ok _ _ w s st (log (EvHead (simple_convert m3u8_url)) s))
    by (unfold requests_head; now rewrite Hh).
  apply Z.eqb_neq in Hst. rewrite Hst.
  unfold parse_playlist. rewrite run_bind. unfold requests_get at 1.
  cbn [trace log]. rewrite Hg.
  destruct outcome as [resp|].
  - specialize (Hne resp eq_refl). apply Z.eqb_neq in Hne. rewrite Hne.
    unfold log. cbn [negb ret trace files]. now rewrite <- app_assoc.
  - unfold log. cbn [ret trace files]. now rewrite <- app_assoc.
Qed.

Lemma X7_manifest_fetch_failure_witness :
  get_video_and_audio_urls Scenario.manifest_url
    (Scenario.static_world [] [] [] (fun _ => Scenario.empty_soup) Scenario.no_tool)
    Scenario.start
  = (Ok (None, None, "failed"),
     mkState [EvHead "https://v1.pinimg.com/videos/mc/720p/ab/x.mp4";
              EvGet "https://v1.pinimg.com/videos/mc/hls/ab/x.m3u8"] ∅).
Proof.
  apply (X7_manifest_fetch_failure
           (Scenario.static_world [] [] [] (fun _ => Scenario.empty_soup) Scenario.no_tool)
           Scenario.start Scenario.manifest_url 404 (Some (mkResponse 404 "")));
    [reflexivity | discriminate | reflexivity |].
  intros resp H. inversion H; subst. discriminate.
Defined.

(** X8.  When the quality loop has found a video URL, the brute-force
    scan of the manifest is not run: the resolver returns that URL with
    the audio URL the extraction found, in the state the loop left, and
    the method says whether there is an audio URL. *)
Theorem X8_tier2_video_skips_tier3 (w : World) (s : State) (m3u8_url : string)
    (st : Z) (resp : Response) (a : option string) (v : string) :
  let s1 := log (EvHead (simple_convert m3u8_url)) s in
  let s2 := log (EvGet m3u8_url) s1 in
  let ra := extract_audio (base_url_of m3u8_url) (text resp) w s2 in
  let rq := quality_loop m3u8_url (text resp) None quality_order w (snd ra) in
  http_head w (trace s) (simple_convert m3u8_url) = Some st -> st <> 200 ->
  http_get w (trace s1) m3u8_url = Some resp -> status_code resp = 200 ->
  fst ra = Ok a ->
  fst rq = Ok (Some v) ->
  v <> "" ->
  get_video_and_audio_urls m3u8_url w s
  = (Ok (Some v, a, if truthy a then "hls_separate" else "hls_video_only"), snd rq).
Proof.
  intros s1 s2 ra rq Hh Hst Hg H200 Ha Hq Hv.
  rewrite (run_to_video_loop w s m3u8_url st resp a Hh Hst Hg H200 Ha).
  fold s1 s2 ra. unfold try_except.
  rewrite (run_bind_ok _ _ w (snd ra) (Some v) (snd rq)) by (apply run_pair, Hq).
  destruct v as [|c v]; [congruence |]. reflexivity.
Qed.

Lemma X8_tier2_video_skips_tier3_witness :
  get_video_and_audio_urls Scenario.manifest_url
    (Scenario.pin_world [] Scenario.no_tool) Scenario.start
  = (Ok (Some Scenario.video_segment, Some Scenario.audio_segment, "hls_separate"),
     mkState [EvHead "https://v1.pinimg.com/videos/mc/720p/ab/x.mp4";
              EvGet "https://v1.pinimg.com/videos/mc/hls/ab/x.m3u8";
              EvGet "https://v1.pinimg.com/videos/mc/hls/ab/x_audio.m3u8";
              EvHead "https://v1.pinimg.com/videos/mc/hls/ab/a.cmfa";
              EvGet "https://v1.pinimg.com/videos/mc/hls/ab/x_720w.m3u8";
              EvHead "https://v1.pinimg.com/videos/mc/hls/ab/v.cmfv"] ∅).
Proof.
  refine (X8_tier2_video_skips_tier3 (Scenario.pin_world [] Scenario.no_tool)
            Scenario.start Scenario.manifest_url 404
            (mkResponse 200 Scenario.pin_manifest_body)
            (Some Scenario.audio_segment) Scenario.video_segment _ _ _ _ _ _ _);
    solve [reflexivity | vm_compute; reflexivity | discriminate].
Defined.

(** X9.  The qualities are tried highest first and the first success
    ends the loop: when the first quality whose marker the manifest holds
    yields a video URL, the loop returns it in the state that attempt
    left, so no lower quality is requested. *)
Theorem X9_first_quality_success_ends_loop (w : World) (s : State)
    (m3u8_url playlist_content : string) (pre : list string) (quality : string)
    (rest : list string) (v : string) :
  markers_absent playlist_content pre = true ->
  contains (quality_marker quality) playlist_content = true ->
  fst (try_quality m3u8_url None quality w s) = Ok (Some v) ->
  v <> "" ->
  quality_loop m3u8_url playlist_content None (pre ++ quality :: rest) w s
  = (Ok (Some v), snd (try_quality m3u8_url None quality w s)).
Proof.
  intros Hpre Hq Ht Hv.
  rewrite quality_loop_skip by exact Hpre.
  cbn [quality_loop]. rewrite Hq.
  rewrite (run_bind_ok _ _ w s (Some v) _ (run_pair _ _ Ht)).
  destruct v as [|c v]; [congruence |]. reflexivity.
Qed.

Lemma X9_first_quality_success_ends_loop_witness :
  quality_loop Scenario.manifest_url Scenario.pin_manifest_body None
    ([] ++ "720w" :: ["540w"; "360w"; "240w"])
    (Scenario.pin_world [] Scenario.no_tool) Scenario.start
  = (Ok (Some "https://v1.pinimg.com/videos/mc/hls/ab/v.cmfv"),
     mkState [EvGet "https://v1.pinimg.com/videos/mc/hls/ab/x_720w.m3u8";
              EvHead "https://v1.pinimg.com/videos/mc/hls/ab/v.cmfv"] ∅).
Proof.
  apply (X9_first_quality_success_ends_loop (Scenario.pin_world [] Scenario.no_tool)
           Scenario.start Scenario.manifest_url Scenario.pin_manifest_body [] "720w"
           ["540w"; "360w"; "240w"] "https://v1.pinimg.com/videos/mc/hls/ab/v.cmfv");
    solve [reflexivity | vm_compute; reflexivity | discriminate].
Defined.

Lemma checked_in_later (w : World) (t0 t1 evs : list Event) (u : string) :
  checked_in w t0 t1 u -> checked_in w t0 (t1 ++ evs) u.
Proof.
  intros (mid & post & -> & H). exists mid, (post ++ evs). split; [| exact H].
  now rewrite <- !app_assoc.
Qed.

Lemma checked_in_earlier (w : World) (t0 evs t1 : list Event) (u : string) :
  checked_in w (t0 ++ evs) t1 u -> checked_in w t0 t1 u.
Proof.
  intros (mid & post & -> & H). exists (evs ++ mid), post.
  rewrite !app_assoc in *. now split.
Qed.

Lemma checked_in_head (w : World) (s : State) (u : string) :
  http_head w (trace s) u = Some 200 ->
  checked_in w (trace s) (trace (log (EvHead u) s)) u.
Proof.
  intros H. exists [], []. cbn [log trace app]. now rewrite app_nil_r.
Qed.

(** A URL the scan of a sub-manifest returns is the one it started with
    or one that the scan has requested with HEAD and that has answered
    200. *)
Lemma scan_segments_checked (w : World) (base_url suffix : string)
    (found : option string) (lines : list string) (s s' : State) (u : string) :
  scan_segments base_url suffix found lines w s = (Ok (Some u), s') ->
  found = Some u \/ checked_in w (trace s) (trace s') u.
Proof.
  revert s. induction lines as [|line rest IH]; intros s H.
  - left. unfold ret in H. now inversion H.
  - cbn [scan_segments] in H. destruct (endswith suffix line); [| exact (IH _ H)].
    rewrite run_bind in H. unfold requests_head in H.
    destruct (http_head w (trace s) (base_url +:+ strip line)) as [st|] eqn:Hh;
      [| discriminate].
    destruct (st =? 200) eqn:E.
    + apply Z.eqb_eq in E. subst st. unfold ret in H. inversion H; subst.
      right. apply checked_in_head, Hh.
    + destruct (IH _ H) as [F|C]; [left; exact F | right].
      exact (checked_in_earlier _ _ _ _ _ C).
Qed.

Lemma try_quality_checked (w : World) (m3u8_url : string) (v0 : option string)
    (q : string) (s s' : State) (u : string) :
  try_quality m3u8_url v0 q w s = (Ok (Some u), s') ->
  v0 = Some u \/ checked_in w (trace s) (trace s') u.
Proof.
  unfold try_quality. rewrite run_bind. unfold requests_get at 1.
  destruct (http_get w (trace s) (stream_url_of m3u8_url q)) as [r|]; [| discriminate].
  destruct (status_code r =? 200).
  - intros H. destruct (scan_segments_checked _ _ _ _ _ _ _ _ H) as [F|C];
      [left; exact F | right].
    exact (checked_in_earlier _ _ _ _ _ C).
  - intros H. left. unfold ret in H. now inversion H.
Qed.

Lemma run_extends {A} (m : M A) (w : World) (s s' : State) (r : Result A) :
  extends m -> m w s = (r, s') -> exists evs, trace s' = trace s ++ evs.
Proof. intros E H. destruct (E w s) as [evs T]. rewrite H in T. eauto. Qed.

Lemma quality_loop_checked (w : World) (m3u8_url content : string) (v0 : option string)
    (qs : list string) (s s' : State) (u : string) :
  quality_loop m3u8_url content v0 qs w s = (Ok (Some u), s') ->
  v0 = Some u \/ checked_in w (trace s) (trace s') u.
Proof.
  revert v0 s. induction qs as [|q rest IH]; intros v0 s H.
  - left. unfold ret in H. now inversion H.
  - cbn [quality_loop] in H.
    destruct (contains (quality_marker q) content); [| exact (IH _ _ H)].
    rewrite run_bind in H.
    destruct (try_quality m3u8_url v0 q w s) as [[v1|e] s1] eqn:T; [| discriminate].
    destruct (run_extends _ _ _ _ _ (extends_try_quality m3u8_url v0 q) T) as [e1 E1].
    destruct (truthy v1).
    + unfold ret in H. inversion H; subst.
      exact (try_quality_checked _ _ _ _ _ _ _ T).
    + destruct (run_extends _ _ _ _ _ (extends_quality_loop m3u8_url content v1 rest) H)
        as [e2 E2].
      destruct (IH _ _ H) as [F|C].
      * subst v1. destruct (try_quality_checked _ _ _ _ _ _ _ T) as [F|C];
          [left; exact F | right].
        rewrite E2. apply checked_in_later, C.
      * right. rewrite E1 in C. exact (checked_in_earlier _ _ _ _ _ C).
Qed.

Lemma scan_mp4_checked (w : World) (v0 : option string) (lines : list string)
    (s s' : State) (u : string) :
  scan_mp4 v0 lines w s = (Ok (Some u), s') ->
  v0 = Some u \/ checked_in w (trace s) (trace s') u.
Proof.
  revert s. induction lines as [|line rest IH]; intros s H.
  - left. unfold ret in H. now inversion H.
  - cbn [scan_mp4] in H.
    destruct (contains ".mp4" line && startswith "http" line); [| exact (IH _ H)].
    rewrite run_bind in H. unfold requests_head in H.
    destruct (http_head w (trace s) (strip line)) as [st|] eqn:Hh; [| discriminate].
    destruct (st =? 200) eqn:E.
    + apply Z.eqb_eq in E. subst st. unfold ret in H. inversion H; subst.
      right. apply checked_in_head, Hh.
    + destruct (IH _ H) as [F|C]; [left; exact F | right].
      exact (checked_in_earlier _ _ _ _ _ C).
Qed.

Lemma extract_audio_checked (w : World) (base_url content : string)
    (s s' : State) (u : string) :
  extract_audio base_url content w s = (Ok (Some u), s') ->
  checked_in w (trace s) (trace s') u.
Proof.
  unfold extract_audio. destruct (Re.search_audio_uri content) as [g|];
    [| discriminate].
  rewrite run_bind. unfold requests_get at 1.
  destruct (http_get w (trace s) (base_url +:+ g)) as [r|]; [| discriminate].
  destruct (status_code r =? 200); [| discriminate].
  intros H. destruct (scan_segments_checked _ _ _ _ _ _ _ _ H) as [F|C];
    [discriminate |].
  exact (checked_in_earlier _ _ _ _ _ C).
Qed.

(** X10.  Every URL the resolver returns, video or audio, was requested
    with HEAD during this very run, after the state the run started in,
    and the answer to that request was 200: nothing is returned
    unchecked. *)
Theorem X10_returned_urls_were_checked (w : World) (s : State) (m3u8_url : string)
    (video_url audio_url : option string) (method : string) :
  fst (get_video_and_audio_urls m3u8_url w s) = Ok (video_url, audio_url, method) ->
  (forall v, video_url = Some v ->
             checked_in w (trace s) (trace (snd (get_video_and_audio_urls m3u8_url w s))) v)
  /\ (forall a, audio_url = Some a ->
                checked_in w (trace s) (trace (snd (get_video_and_audio_urls m3u8_url w s))) a).
Proof.
  remember (get_video_and_audio_urls m3u8_url w s) as run eqn:R.
  assert (F : forall s', run = (Ok (None, None, "failed"), s') ->
              fst run = Ok (video_url, audio_url, method) ->
              (forall v, video_url = Some v -> checked_in w (trace s) (trace (snd run)) v)
              /\ (forall a, audio_url = Some a ->
                            checked_in w (trace s) (trace (snd run)) a)).
  { intros s' -> H. inversion H; subst. split; intros; discriminate. }
  unfold get_video_and_audio_urls, try_except in R. rewrite run_bind in R.
  unfold requests_head at 1 in R.
  destruct (http_head w (trace s) (simple_convert m3u8_url)) as [st|] eqn:Hh;
    [| exact (F _ R)].
  set (s1 := log (EvHead (simple_convert m3u8_url)) s) in R.
  destruct (st =? 200) eqn:E.
  { apply Z.eqb_eq in E. subst st. subst run. cbn [ret fst snd]. intros H.
    inversion H; subst. split; intros x Hx; [| discriminate].
    inversion Hx; subst. apply checked_in_head, Hh. }
  unfold parse_playlist in R. rewrite run_bind in R. unfold requests_get at 1 in R.
  destruct (http_get w (trace s1) m3u8_url) as [resp|]; [| exact (F _ R)].
  set (s2 := log (EvGet m3u8_url) s1) in R.
  destruct (negb (status_code resp =? 200)); [exact (F _ R) |].
  rewrite run_bind in R.
  destruct (extract_audio (base_url_of m3u8_url) (text resp) w s2) as [[a|e] s3] eqn:A;
    [| exact (F _ R)].
  rewrite run_bind in R.
  destruct (quality_loop m3u8_url (text resp) None quality_order w s3)
    as [[vq|e] s4] eqn:Q; [| exact (F _ R)].
  rewrite run_bind in R.
  assert (T3 : exists r5, (if negb (truthy vq)
                           then scan_mp4 vq (split Re.newline (text resp))
                           else ret vq) w s4 = r5) by (eexists; reflexivity).
  destruct T3 as [[[v|e] s5] T3]; rewrite T3 in R; [| exact (F _ R)].
  destruct (truthy v) eqn:Tv; [| exact (F _ R)].
  (* the traces of the states passed through *)
  assert (E2 : trace s2 = trace s ++ [EvHead (simple_convert m3u8_url); EvGet m3u8_url])
    by (subst s2 s1; cbn [log trace]; now rewrite <- app_assoc).
  destruct (run_extends _ _ _ _ _ (extends_extract_audio _ _) A) as [e3 E3].
  destruct (run_extends _ _ _ _ _ (extends_quality_loop _ _ _ _) Q) as [e4 E4].
  assert (E5 : exists e5, trace s5 = trace s4 ++ e5).
  { destruct (negb (truthy vq)).
    - exact (run_extends _ _ _ _ _ (extends_scan_mp4 _ _) T3).
    - unfold ret in T3. inversion T3; subst. exists []. now rewrite app_nil_r. }
  destruct E5 as [e5 E5].
  subst run. cbn [ret fst snd]. intros H. inversion H; subst. split.
  - intros x ->.
    assert (Vq : forall y, vq = Some y -> checked_in w (trace s) (trace s5) y).
    { intros y ->. destruct (quality_loop_checked _ _ _ _ _ _ _ _ Q) as [D|C];
        [discriminate |].
      rewrite E5. apply checked_in_later.
      rewrite E3, E2 in C. rewrite <- app_assoc in C.
      exact (checked_in_earlier _ _ _ _ _ C). }
    destruct (negb (truthy vq)).
    + destruct (scan_mp4_checked _ _ _ _ _ _ T3) as [D|C]; [exact (Vq _ D) |].
      rewrite E4, E3, E2 in C. rewrite <- !app_assoc in C.
      exact (checked_in_earlier _ _ _ _ _ C).
    + unfold ret in T3. inversion T3; subst. exact (Vq _ eq_refl).
  - intros x ->.
    pose proof (extract_audio_checked _ _ _ _ _ _ A) as C.
    rewrite E5, E4. rewrite <- app_assoc. apply checked_in_later.
    rewrite E2 in C. exact (checked_in_earlier _ _ _ _ _ C).
Qed.

Lemma X10_returned_urls_were_checked_witness :
  checked_in (Scenario.pin_world [] Scenario.no_tool) (trace Scenario.start)
    (trace (snd (get_video_and_audio_urls Scenario.manifest_url
                   (Scenario.pin_world [] Scenario.no_tool) Scenario.start)))
    Scenario.video_segment
  /\ checked_in (Scenario.pin_world [] Scenario.no_tool) (trace Scenario.start)
       (trace (snd (get_video_and_audio_urls Scenario.manifest_url
                      (Scenario.pin_world [] Scenario.no_tool) Scenario.start)))
       Scenario.audio_segment.
Proof.
  destruct (X10_returned_urls_were_checked (Scenario.pin_world [] Scenario.no_tool)
              Scenario.start Scenario.manifest_url
              (Some Scenario.video_segment) (Some Scenario.audio_segment) "hls_separate"
              ltac:(vm_compute; reflexivity)) as [V A].
  split; [exact (V _ eq_refl) | exact (A _ eq_refl)].
Defined.

(** Two endings of one string: one of them is an ending of the other. *)
Lemma endswith_comparable (a b l : string) :
  endswith a l = true -> endswith b l = true ->
  endswith a b = true \/ endswith b a = true.
Proof.
  induction l as [|c l IH]; cbn [endswith]; intros Ha Hb.
  - destruct (String.eqb a "") eqn:Ea; [| discriminate].
    destruct (String.eqb b "") eqn:Eb; [| discriminate].
    apply String.eqb_eq in Ea, Eb. subst. left. reflexivity.
  - destruct (String.eqb a (String c l)) eqn:Ea.
    + apply String.eqb_eq in Ea. subst a. right.
      cbn [endswith]. exact Hb.
    + destruct (String.eqb b (String c l)) eqn:Eb.
      * apply String.eqb_eq in Eb. subst b. left.
        cbn [endswith]. now rewrite Ea.
      * exact (IH Ha Hb).
Qed.

(** X11.  The segment suffix is tested on the line before it is
    stripped: in a sub-manifest whose lines all end in a carriage return
    no line is taken, no request is made and the loop variable is left
    as it was, for the audio suffix as for the video suffix. *)
Theorem X11_crlf_lines_are_never_probed (w : World) (s : State)
    (base_url suffix : string) (found : option string) (lines : list string) :
  suffix = ".cmfa" \/ suffix = ".cmfv" ->
  forallb (endswith (String "013" "")) lines = true ->
  scan_segments base_url suffix found lines w s = (Ok found, s).
Proof.
  intros Hs Hl. induction lines as [|line rest IH]; [reflexivity |].
  cbn [forallb] in Hl. apply andb_true_iff in Hl as [Hline Hrest].
  cbn [scan_segments].
  destruct (endswith suffix line) eqn:E; [| exact (IH Hrest)].
  destruct (endswith_comparable _ _ _ Hline E) as [C|C];
    destruct Hs as [-> | ->]; vm_compute in C; discriminate.
Qed.

Lemma X11_crlf_lines_are_never_probed_witness :
  scan_segments Scenario.manifest_base ".cmfv" None
    ["#EXTM3U" +:+ String "013" ""; "v.cmfv" +:+ String "013" ""]
    (Scenario.pin_world [] Scenario.no_tool) Scenario.start
  = (Ok None, Scenario.start).
Proof.
  exact (X11_crlf_lines_are_never_probed (Scenario.pin_world [] Scenario.no_tool)
           Scenario.start Scenario.manifest_base ".cmfv" None
           ["#EXTM3U" +:+ String "013" ""; "v.cmfv" +:+ String "013" ""]
           (or_intror eq_refl) eq_refl).
Defined.

(* ================================================================= *)
(** ** More on the fetcher                                              *)
(* ================================================================= *)

(** The write loop on a file that is there: the chunks are appended in
    order and their bytes counted; the trace is left alone. *)
Lemma write_chunks_run (w : World) (filename : string) (data_chunks : list string)
    (breaks : bool) (n : Z) (s : State) (held : string) :
  files s !! filename = Some held ->
  write_chunks filename data_chunks breaks n w s
  = (if breaks then Exn "RequestException"
     else Ok (n + Z.of_nat (String.length (concat_chunks data_chunks))),
     mkState (trace s) (<[filename := held +:+ concat_chunks data_chunks]> (files s))).
Proof.
  revert n s held. induction data_chunks as [|data rest IH]; intros n s held H.
  - cbn [write_chunks concat_chunks fold_right String.length].
    rewrite append_nil_r, Z.add_0_r, (insert_id _ _ _ H).
    destruct s; destruct breaks; reflexivity.
  - cbn [write_chunks concat_chunks fold_right]. fold (concat_chunks rest).
    destruct data as [|c data].
    + cbn [String.append]. apply IH, H.
    + rewrite run_bind. unfold file_write at 1. rewrite H. cbn [default].
      rewrite (IH _ _ (held +:+ String c data))
        by (cbn [files]; apply lookup_insert_eq).
      cbn [trace files].
      rewrite insert_insert_eq, append_assoc, length_append, Nat2Z.inj_add, Z.add_assoc.
      reflexivity.
Qed.

Lemma length_zero_empty (x : string) :
  (Z.of_nat (String.length x) =? 0) = String.eqb x "".
Proof.
  destruct x; [reflexivity |]. cbn [String.eqb]. apply Z.eqb_neq.
  cbn [String.length]. lia.
Qed.

(** The whole run of [download_file], case by case. *)
Lemma download_file_run (w : World) (s : State) (url filename : string) :
  download_file url filename w s
  = match http_stream w (trace s) url with
    | None => (Ok false, log (EvStream url) s)
    | Some response =>
        if negb (stream_status response =? 200) then (Ok false, log (EvStream url) s)
        else
          match content_length response with
          | Some None => (Ok false, log (EvStream url) s)
          | _ =>
              let body := concat_chunks (chunks response) in
              if fs_open_ok w (trace s ++ [EvStream url]) filename then
                if stream_breaks response || negb (String.eqb body "") then
                  (Ok (negb (stream_breaks response)),
                   mkState (trace s ++ [EvStream url; EvOpen filename])
                     (<[filename := body]> (files s)))
                else
                  (Ok false,
                   mkState (trace s ++ [EvStream url; EvOpen filename; EvRemove filename])
                     (delete filename (files s)))
              else
                (Ok false, mkState (trace s ++ [EvStream url; EvOpen filename]) (files s))
          end
    end.
Proof.
  unfold download_file. unfold try_except at 1. rewrite run_bind.
  unfold requests_get_stream at 1.
  destruct (http_stream w (trace s) url) as [response|]; [| reflexivity].
  destruct (negb (stream_status response =? 200)); [reflexivity |].
  assert (G : forall n : Z,
    match (file_size <- ret n ;;
           open_wb filename ;;;
           bytes_written <- write_chunks filename (chunks response)
                              (stream_breaks response) 0 ;;
           if bytes_written =? 0 then os_remove filename ;;; ret false else ret true)
            w (log (EvStream url) s) with
    | (Ok a, s') => (Ok a, s')
    | (Exn e, s') => ret false w s'
    end
    = let body := concat_chunks (chunks response) in
      if fs_open_ok w (trace s ++ [EvStream url]) filename then
        if stream_breaks response || negb (String.eqb body "") then
          (Ok (negb (stream_breaks response)),
           mkState (trace s ++ [EvStream url; EvOpen filename])
             (<[filename := body]> (files s)))
        else
          (Ok false,
           mkState (trace s ++ [EvStream url; EvOpen filename; EvRemove filename])
             (delete filename (files s)))
      else
        (Ok false, mkState (trace s ++ [EvStream url; EvOpen filename]) (files s))).
  { intros n. rewrite (run_bind_ok _ _ _ _ n _ eq_refl).
    rewrite run_bind. unfold open_wb. cbn [trace log files].
    destruct (fs_open_ok w (trace s ++ [EvStream url]) filename).
    - rewrite run_bind.
      rewrite (write_chunks_run w filename _ _ 0 _ "")
        by (cbn [files]; apply lookup_insert_eq).
      cbn [trace files String.append]. rewrite insert_insert_eq, <- app_assoc.
      cbn [app]. destruct (stream_breaks response); [reflexivity |].
      cbn [orb negb]. rewrite Z.add_0_l, length_zero_empty.
      destruct (String.eqb (concat_chunks (chunks response)) ""); [| reflexivity].
      cbn [negb]. rewrite run_bind. unfold os_remove. cbn [files trace].
      rewrite lookup_insert_eq. cbn [ret].
      rewrite delete_insert_eq, <- app_assoc. reflexivity.
    - unfold log. cbn [ret trace files]. rewrite <- app_assoc. reflexivity. }
  rewrite run_bind. unfold int_content_length.
  destruct (content_length response) as [[sz|]|].
  - exact (G sz).
  - reflexivity.
  - exact (G 0).
Qed.

(** X12.  A download whose response comes with 200, whose header reads,
    whose file opens and whose stream ends normally with at least one
    byte returns [True] and leaves at the destination exactly the bytes
    streamed, in order, in place of whatever was there; the value of
    Content-Length plays no part. *)
Theorem X12_download_writes_the_stream (w : World) (s : State) (url filename : string)
    (response : StreamResponse) :
  http_stream w (trace s) url = Some response ->
  stream_status response = 200 ->
  content_length response <> Some None ->
  fs_open_ok w (trace s ++ [EvStream url]) filename = true ->
  stream_breaks response = false ->
  concat_chunks (chunks response) <> "" ->
  download_file url filename w s
  = (Ok true,
     mkState (trace s ++ [EvStream url; EvOpen filename])
       (<[filename := concat_chunks (chunks response)]> (files s))).
Proof.
  intros Hs H200 Hcl Hopen Hb Hne.
  rewrite download_file_run, Hs, H200, Hopen, Hb. cbn [Z.eqb Pos.eqb negb orb].
  apply String.eqb_neq in Hne. rewrite Hne. cbn [negb].
  destruct (content_length response) as [[sz|]|]; congruence.
Qed.

Lemma X12_download_writes_the_stream_witness :
  download_file Scenario.file_url "out/x.mp4"
    (Scenario.one_stream_world (mkStream 200 (Some (Some 999)) ["AB"; ""; "C"] false))
    Scenario.old_files
  = (Ok true,
     mkState [EvStream Scenario.file_url; EvOpen "out/x.mp4"]
       (<["out/x.mp4" := "ABC"]> (<["out/x.mp4" := "OLD"]> (<["out/other.mp4" := "KEEP"]> ∅)))).
Proof.
  apply (X12_download_writes_the_stream
           (Scenario.one_stream_world (mkStream 200 (Some (Some 999)) ["AB"; ""; "C"] false))
           Scenario.old_files Scenario.file_url "out/x.mp4"
           (mkStream 200 (Some (Some 999)) ["AB"; ""; "C"] false));
    solve [reflexivity | discriminate].
Defined.

(** X13.  When the stream raises after the file was opened, the download
    returns [False] and the file stays at the destination with the bytes
    received so far, none included: only the zero-byte path of a stream
    that ended removes it. *)
Theorem X13_broken_stream_leaves_partial_file (w : World) (s : State)
    (url filename : string) (response : StreamResponse) :
  http_stream w (trace s) url = Some response ->
  stream_status response = 200 ->
  content_length response <> Some None ->
  fs_open_ok w (trace s ++ [EvStream url]) filename = true ->
  stream_breaks response = true ->
  download_file url filename w s
  = (Ok false,
     mkState (trace s ++ [EvStream url; EvOpen filename])
       (<[filename := concat_chunks (chunks response)]> (files s))).
Proof.
  intros Hs H200 Hcl Hopen Hb.
  rewrite download_file_run, Hs, H200, Hopen, Hb. cbn [Z.eqb Pos.eqb negb orb].
  destruct (content_length response) as [[sz|]|]; congruence.
Qed.

Lemma X13_broken_stream_leaves_partial_file_witness :
  download_file Scenario.file_url "out/x.mp4"
    (Scenario.one_stream_world (mkStream 200 None ["AB"] true)) Scenario.start
  = (Ok false,
     mkState [EvStream Scenario.file_url; EvOpen "out/x.mp4"] (<["out/x.mp4" := "AB"]> ∅)).
Proof.
  apply (X13_broken_stream_leaves_partial_file
           (Scenario.one_stream_world (mkStream 200 None ["AB"] true))
           Scenario.start Scenario.file_url "out/x.mp4" (mkStream 200 None ["AB"] true));
    solve [reflexivity | discriminate].
Defined.

(** X14.  When the request raises or the status is not 200, the download
    returns [False] after that one request: no file is opened, created
    or removed, and a file already at the destination stays as it is. *)
Theorem X14_refused_download_touches_nothing (w : World) (s : State)
    (url filename : string) :
  (forall response, http_stream w (trace s) url = Some response ->
                    stream_status response <> 200) ->
  download_file url filename w s
  = (Ok false, mkState (trace s ++ [EvStream url]) (files s)).
Proof.
  intros H. rewrite download_file_run.
  destruct (http_stream w (trace s) url) as [response|]; [| reflexivity].
  specialize (H response eq_refl). apply Z.eqb_neq in H. now rewrite H.
Qed.

Lemma X14_refused_download_touches_nothing_witness :
  download_file "https://v1.pinimg.com/videos/gone.mp4" "out/x.mp4"
    (Scenario.one_stream_world (mkStream 200 None ["AB"] false)) Scenario.old_files
  = (Ok false,
     mkState [EvStream "https://v1.pinimg.com/videos/gone.mp4"]
       (<["out/x.mp4" := "OLD"]> (<["out/other.mp4" := "KEEP"]> ∅))).
Proof.
  apply (X14_refused_download_touches_nothing
           (Scenario.one_stream_world (mkStream 200 None ["AB"] false))
           Scenario.old_files "https://v1.pinimg.com/videos/gone.mp4" "out/x.mp4").
  intros response H. vm_compute in H. inversion H; subst. discriminate.
Defined.

(** X15.  A download changes no file but its destination, however it
    ends. *)
Theorem X15_download_touches_only_destination (w : World) (s : State)
    (url filename other : string) :
  other <> filename ->
  files (snd (download_file url filename w s)) !! other = files s !! other.
Proof. apply download_file_other. Qed.

Lemma X15_download_touches_only_destination_witness :
  files (snd (download_file Scenario.file_url "out/x.mp4"
                (Scenario.one_stream_world (mkStream 200 None ["AB"] false))
                Scenario.old_files)) !! "out/other.mp4"
  = Some "KEEP".
Proof.
  exact (X15_download_touches_only_destination
           (Scenario.one_stream_world (mkStream 200 None ["AB"] false))
           Scenario.old_files Scenario.file_url "out/x.mp4" "out/other.mp4"
           ltac:(discriminate)).
Defined.

(** X16.  [download_file] never raises: every exception of the request,
    the header, the file or the stream ends in [False]; and it returns
    [True] only with a file at the destination that holds at least one
    byte. *)
Theorem X16_download_never_raises (w : World) (s : State) (url filename : string) :
  exists ok : bool,
    fst (download_file url filename w s) = Ok ok
    /\ (if ok
        then exists c bytes,
               files (snd (download_file url filename w s)) !! filename
               = Some (String c bytes)
        else True).
Proof.
  rewrite download_file_run.
  destruct (http_stream w (trace s) url) as [response|]; [| exists false; now split].
  destruct (negb (stream_status response =? 200)); [exists false; now split |].
  assert (G : exists ok : bool,
    fst (let body := concat_chunks (chunks response) in
         if fs_open_ok w (trace s ++ [EvStream url]) filename then
           if stream_breaks response || negb (String.eqb body "") then
             (Ok (negb (stream_breaks response)),
              mkState (trace s ++ [EvStream url; EvOpen filename])
                (<[filename := body]> (files s)))
           else
             (Ok false,
              mkState (trace s ++ [EvStream url; EvOpen filename; EvRemove filename])
                (delete filename (files s)))
         else
           (Ok false, mkState (trace s ++ [EvStream url; EvOpen filename]) (files s)))
    = Ok ok
    /\ (if ok
        then exists c bytes,
          files (snd (let body := concat_chunks (chunks response) in
            if fs_open_ok w (trace s ++ [EvStream url]) filename then
              if stream_breaks response || negb (String.eqb body "") then
                (Ok (negb (stream_breaks response)),
                 mkState (trace s ++ [EvStream url; EvOpen filename])
                   (<[filename := body]> (files s)))
              else
                (Ok false,
                 mkState (trace s ++ [EvStream url; EvOpen filename; EvRemove filename])
                   (delete filename (files s)))
            else
              (Ok false, mkState (trace s ++ [EvStream url; EvOpen filename]) (files s))))
          !! filename = Some (String c bytes)
        else True)).
  { cbv zeta.
    destruct (fs_open_ok w (trace s ++ [EvStream url]) filename); [| exists false; now split].
    destruct (stream_breaks response); [exists false; now split |].
    cbn [orb negb].
    destruct (concat_chunks (chunks response)) as [|c bytes] eqn:B;
      cbn [String.eqb negb]; [exists false; now split |].
    exists true. split; [reflexivity |]. exists c, bytes.
    cbn [snd files]. apply lookup_insert_eq. }
  destruct (content_length response) as [[sz|]|];
    [exact G | exists false; now split | exact G].
Qed.

(* ================================================================= *)
(** ** More on the muxer                                                *)
(* ================================================================= *)

(** X17.  When the tool answers its version probe and its mux run with
    exit code 0, and the two input files are there and are different
    files the tool leaves alone, [merge_video_audio] returns [True]
    after removing the video file and then the audio file: neither is on
    disk afterwards. *)
Theorem X17_successful_mux_removes_inputs (w : World) (s : State)
    (video_file audio_file output_file : string) :
  let probe := ["ffmpeg"; "-version"] in
  let cmd := ffmpeg_cmd video_file audio_file output_file in
  let r := merge_video_audio video_file audio_file output_file w s in
  proc_run w (trace s) probe = Some 0 ->
  proc_run w (trace s ++ [EvRun probe]) cmd = Some 0 ->
  tool_keeps w video_file ->
  tool_keeps w audio_file ->
  video_file <> audio_file ->
  is_Some (files s !! video_file) ->
  is_Some (files s !! audio_file) ->
  fst r = Ok true
  /\ trace (snd r)
     = trace s ++ [EvRun probe; EvRun cmd; EvRemove video_file; EvRemove audio_file]
  /\ files (snd r) !! video_file = None
  /\ files (snd r) !! audio_file = None.
Proof.
  intros probe cmd r Hp Hm Kv Ka Hne [vb Hv] [ab Ha].
  assert (E : r = (Ok true,
                   mkState (trace s ++ [EvRun probe; EvRun cmd;
                                        EvRemove video_file; EvRemove audio_file])
                     (delete audio_file (delete video_file
                        (proc_files w (trace s ++ [EvRun probe]) cmd
                           (proc_files w (trace s) probe (files s))))))).
  { subst r. unfold merge_video_audio, try_except. rewrite run_bind.
    unfold subprocess_run at 1. fold probe. rewrite Hp. cbn [Z.eqb negb].
    rewrite run_bind. unfold subprocess_run at 1. fold cmd. cbn [trace files].
    rewrite Hm. cbn [Z.eqb].
    rewrite run_bind. unfold os_remove at 1. cbn [trace files].
    rewrite !Kv, Hv.
    rewrite run_bind. unfold os_remove at 1. cbn [trace files].
    rewrite lookup_delete_ne, !Ka, Ha by exact Hne.
    cbn [ret]. rewrite <- !app_assoc. reflexivity. }
  rewrite E. cbn [fst snd trace files]. repeat split.
  - rewrite lookup_delete_ne by congruence. apply lookup_delete_eq.
  - apply lookup_delete_eq.
Qed.

Lemma X17_successful_mux_removes_inputs_witness :
  let r := merge_video_audio "out/v.mp4" "out/a.mp4" "out/final.mp4"
             (Scenario.tool_only_world (fun _ => Some 0)) Scenario.two_files in
  fst r = Ok true
  /\ trace (snd r)
     = [EvRun ["ffmpeg"; "-version"];
        EvRun (ffmpeg_cmd "out/v.mp4" "out/a.mp4" "out/final.mp4");
        EvRemove "out/v.mp4"; EvRemove "out/a.mp4"]
  /\ files (snd r) !! "out/v.mp4" = None
  /\ files (snd r) !! "out/a.mp4" = None.
Proof.
  apply (X17_successful_mux_removes_inputs (Scenario.tool_only_world (fun _ => Some 0))
           Scenario.two_files "out/v.mp4" "out/a.mp4" "out/final.mp4");
    solve [reflexivity | discriminate | intros ? ? ?; reflexivity
          | vm_compute; eauto].
Defined.

(** X18.  When the version probe raises (the tool is not installed) or
    exits with a nonzero code, [merge_video_audio] returns [False]
    without running the mux: the probe is the only thing issued, and
    nothing is removed. *)
Theorem X18_missing_tool_skips_the_mux (w : World) (s : State)
    (video_file audio_file output_file : string) (outcome : option Z) :
  let probe := ["ffmpeg"; "-version"] in
  proc_run w (trace s) probe = outcome ->
  outcome <> Some 0 ->
  merge_video_audio video_file audio_file output_file w s
  = (Ok false,
     mkState (trace s ++ [EvRun probe])
       match outcome with
       | Some _ => proc_files w (trace s) probe (files s)
       | None => files s
       end).
Proof.
  intros probe Hp Hnz.
  unfold merge_video_audio, try_except. rewrite run_bind.
  unfold subprocess_run at 1. fold probe. rewrite Hp.
  destruct outcome as [rc|]; [| reflexivity].
  destruct (rc =? 0) eqn:E; [apply Z.eqb_eq in E; congruence | reflexivity].
Qed.

Lemma X18_missing_tool_skips_the_mux_witness :
  merge_video_audio "out/v.mp4" "out/a.mp4" "out/final.mp4"
    (Scenario.tool_only_world Scenario.no_tool) Scenario.two_files
  = (Ok false,
     mkState [EvRun ["ffmpeg"; "-version"]]
       (<["out/v.mp4" := "VIDEO"]> (<["out/a.mp4" := "AUDIO"]> ∅))).
Proof.
  exact (X18_missing_tool_skips_the_mux (Scenario.tool_only_world Scenario.no_tool)
           Scenario.two_files "out/v.mp4" "out/a.mp4" "out/final.mp4" None
           eq_refl ltac:(discriminate)).
Defined.

Lemma merge_video_audio_outcome (w : World) (s : State)
    (video_file audio_file output_file : string) :
  exists ok : bool,
    fst (merge_video_audio video_file audio_file output_file w s) = Ok ok
    /\ (ok = true ->
        files (snd (merge_video_audio video_file audio_file output_file w s))
          !! video_file = None
        /\ files (snd (merge_video_audio video_file audio_file output_file w s))
             !! audio_file = None).
Proof.
  remember (merge_video_audio video_file audio_file output_file w s) as r eqn:E.
  unfold merge_video_audio, try_except in E. rewrite run_bind in E.
  destruct (subprocess_run ["ffmpeg"; "-version"] w s) as [[rc|e] s1];
    [| subst r; exists false; split; [reflexivity | discriminate]].
  destruct (negb (rc =? 0)); [subst r; exists false; split; [reflexivity | discriminate] |].
  rewrite run_bind in E.
  destruct (subprocess_run (ffmpeg_cmd video_file audio_file output_file) w s1)
    as [[rc2|e] s2]; [| subst r; exists false; split; [reflexivity | discriminate]].
  destruct (rc2 =? 0); [| subst r; exists false; split; [reflexivity | discriminate]].
  rewrite run_bind in E. unfold os_remove at 1 in E.
  destruct (files s2 !! video_file);
    [| subst r; exists false; split; [reflexivity | discriminate]].
  rewrite run_bind in E. unfold os_remove at 1 in E. cbn [files trace] in E.
  destruct (delete video_file (files s2) !! audio_file) eqn:A;
    [| subst r; exists false; split; [reflexivity | discriminate]].
  subst r. exists true. split; [reflexivity |]. intros _. cbn [snd ret files]. split.
  - destruct (decide (audio_file = video_file)) as [->|N].
    + apply lookup_delete_eq.
    + rewrite lookup_delete_ne by exact N. apply lookup_delete_eq.
  - apply lookup_delete_eq.
Qed.

(** X19.  [merge_video_audio] never raises, and it returns [True] only
    when neither input file is on disk any more. *)
Theorem X19_merge_never_raises (w : World) (s : State)
    (video_file audio_file output_file : string) :
  exists ok : bool,
    fst (merge_video_audio video_file audio_file output_file w s) = Ok ok
    /\ (if ok
        then files (snd (merge_video_audio video_file audio_file output_file w s))
               !! video_file = None
             /\ files (snd (merge_video_audio video_file audio_file output_file w s))
                  !! audio_file = None
        else True).
Proof.
  destruct (merge_video_audio_outcome w s video_file audio_file output_file)
    as (ok & E & H).
  exists ok. split; [exact E |]. destruct ok; [apply H; reflexivity | exact I].
Qed.

(* ================================================================= *)
(** ** More on the metadata extractor                                   *)
(* ================================================================= *)

Lemma rstrip_idempotent (s : string) : rstrip (rstrip s) = rstrip s.
Proof.
  induction s as [|c s IH]; [reflexivity |].
  cbn [rstrip]. destruct (rstrip s) as [|d r] eqn:R.
  - destruct (isspace c) eqn:E; [reflexivity |]. cbn [rstrip]. now rewrite E.
  - cbn [rstrip]. cbn [rstrip] in IH.
    destruct (rstrip r) as [|d' r'] eqn:R'.
    + destruct (isspace d); [discriminate | now rewrite IH].
    + now rewrite IH.
Qed.

Lemma lstrip_starts_clean (s : string) : starts_clean (lstrip s) = true.
Proof.
  induction s as [|c s IH]; [reflexivity |].
  cbn [lstrip]. destruct (isspace c) eqn:E; [exact IH |].
  cbn [starts_clean]. now rewrite E.
Qed.

Lemma rstrip_starts_clean (s : string) :
  starts_clean s = true -> starts_clean (rstrip s) = true.
Proof.
  destruct s as [|c s]; [reflexivity |]. cbn [starts_clean rstrip]. intros H.
  destruct (rstrip s); [| exact H].
  destruct (isspace c) eqn:E; [discriminate H |].
  cbn [starts_clean]. now rewrite E.
Qed.

Lemma lstrip_clean (s : string) : starts_clean s = true -> lstrip s = s.
Proof.
  destruct s as [|c s]; [reflexivity |]. cbn [starts_clean lstrip]. intros H.
  apply negb_true_iff in H. now rewrite H.
Qed.

(** Stripping a stripped string changes nothing. *)
Lemma strip_idempotent (s : string) : strip (strip s) = strip s.
Proof.
  unfold strip.
  rewrite (lstrip_clean (rstrip (lstrip s)))
    by apply rstrip_starts_clean, lstrip_starts_clean.
  apply rstrip_idempotent.
Qed.

(** X20.  An [og:title] element with content gives the title, whatever
    the [twitter:title] and title elements hold. *)
Theorem X20_og_title_comes_first (soup : Soup) (og_title : Tag) (c : string) :
  soup_find soup "meta" [("property", "og:title")] = Some og_title ->
  tag_get og_title "content" = Some c ->
  c <> "" ->
  title (extract_pinterest_metadata soup) = Some c.
Proof.
  intros Hf Hc Hne. destruct c as [|x c]; [congruence |].
  assert (O : content_of (soup_find soup "meta" [("property", "og:title")])
              = Some (String x c))
    by (rewrite Hf; unfold content_of; now rewrite Hc).
  unfold extract_pinterest_metadata. cbn [title]. rewrite O. reflexivity.
Qed.

Lemma X20_og_title_comes_first_witness :
  title (extract_pinterest_metadata
           (Scenario.meta_soup [("property", "og:title", "Og title");
                                ("name", "twitter:title", "Twitter title")]
              (Some "Page title")))
  = Some "Og title".
Proof.
  apply (X20_og_title_comes_first _
           (Scenario.element [("property", "og:title"); ("content", "Og title")] "")
           "Og title"); solve [reflexivity | discriminate].
Defined.

(** X21.  Without content in [og:title] and in [twitter:title], the
    title is the stripped text of the title element when there is one,
    be it empty, and stays absent when there is none. *)
Theorem X21_title_element_is_the_last_resort (soup : Soup) :
  content_of (soup_find soup "meta" [("property", "og:title")]) = None ->
  content_of (soup_find soup "meta" [("name", "twitter:title")]) = None ->
  title (extract_pinterest_metadata soup)
  = option_map (fun title_tag => strip (get_text title_tag)) (soup_find soup "title" []).
Proof.
  intros Ho Ht. unfold extract_pinterest_metadata. cbn [title].
  rewrite Ho. cbn [truthy negb]. rewrite Ht. cbn [truthy negb].
  now destruct (soup_find soup "title" []).
Qed.

Lemma X21_title_element_is_the_last_resort_witness :
  title (extract_pinterest_metadata
           (Scenario.meta_soup [("name", "twitter:title", "")] (Some "  Page title ")))
  = Some "Page title"
  /\ title (extract_pinterest_metadata (Scenario.meta_soup [] None)) = None.
Proof.
  split.
  - exact (X21_title_element_is_the_last_resort
             (Scenario.meta_soup [("name", "twitter:title", "")] (Some "  Page title "))
             eq_refl eq_refl).
  - exact (X21_title_element_is_the_last_resort (Scenario.meta_soup [] None)
             eq_refl eq_refl).
Defined.

(** X22.  The description is never an empty string: it is the content of
    [og:description] when that is not empty, else the content of the
    [description] meta element when that is not empty, else absent. *)
Theorem X22_description_is_absent_or_not_empty (soup : Soup) :
  description (extract_pinterest_metadata soup) <> Some ""
  /\ description (extract_pinterest_metadata soup)
     = match content_of (soup_find soup "meta" [("property", "og:description")]) with
       | Some c => Some c
       | None => content_of (soup_find soup "meta" [("name", "description")])
       end.
Proof.
  assert (C : forall tag, content_of tag <> Some "").
  { intros [t|]; cbn [content_of]; [| discriminate].
    destruct (tag_get t "content") as [[|x c]|]; cbn [truthy]; discriminate. }
  unfold extract_pinterest_metadata. cbn [description].
  set (og := content_of (soup_find soup "meta" [("property", "og:description")])).
  set (de := content_of (soup_find soup "meta" [("name", "description")])).
  pose proof (C (soup_find soup "meta" [("property", "og:description")])) as Hog.
  pose proof (C (soup_find soup "meta" [("name", "description")])) as Hde.
  fold og in Hog. fold de in Hde.
  destruct og as [[|x c]|]; [congruence | |].
  - split; [discriminate | reflexivity].
  - cbn [truthy negb]. destruct de as [d|]; split; auto; discriminate.
Qed.

(** X23.  Every keyword is a comma-separated piece of the [keywords]
    content, stripped and not empty; stripping it again changes
    nothing.  So without such content there is no keyword. *)
Theorem X23_keywords_are_stripped_and_not_empty (soup : Soup) :
  Forall (fun k => k <> "" /\ strip k = k
                   /\ exists c piece,
                        content_of (soup_find soup "meta" [("name", "keywords")]) = Some c
                        /\ In piece (split "," c) /\ k = strip piece)
    (keywords (extract_pinterest_metadata soup)).
Proof.
  unfold extract_pinterest_metadata. cbn [keywords].
  destruct (content_of (soup_find soup "meta" [("name", "keywords")])) as [c|];
    [| constructor].
  apply List.Forall_forall. intros k Hk.
  apply List.in_map_iff in Hk as (piece & <- & Hp).
  apply List.filter_In in Hp as [Hin Ht].
  split; [| split].
  - intros E. rewrite E in Ht. discriminate.
  - apply strip_idempotent.
  - exists c, piece. auto.
Qed.

Example keywords_ex :
  keywords (extract_pinterest_metadata
              (Scenario.meta_soup [("name", "keywords", " cake , ,baking,,  ")] None))
  = ["cake"; "baking"].
Proof. vm_compute. reflexivity. Qed.

(* ================================================================= *)
(** ** More on the orchestrator                                         *)
(* ================================================================= *)

(** X24.  When the first fetch answers something else than 200, the
    operation raises after that one request, with the message of the
    short-link branch for a URL that holds the short-link host and the
    message of the page fetch otherwise; no file is touched. *)
Theorem X24_first_fetch_failure (w : World) (s : State) (page_url output_dir : string)
    (body : Response) :
  http_get w (trace s) page_url = Some body ->
  status_code body <> 200 ->
  download_pinterest_video page_url output_dir w s
  = (Exn (if contains "https://pin.it/" page_url
          then "Invalid URL or network error"
          else "Failed to fetch Pinterest page"),
     mkState (trace s ++ [EvGet page_url]) (files s)).
Proof.
  intros Hg Hst. apply Z.eqb_neq in Hst.
  unfold download_pinterest_video, locate_streams, resolve_short_url.
  destruct (contains "https://pin.it/" page_url).
  - rewrite !run_bind. unfold requests_get at 1. rewrite Hg, Hst. reflexivity.
  - rewrite run_bind. rewrite (run_bind_ok _ _ w s page_url s eq_refl).
    rewrite run_bind. unfold requests_get at 1. rewrite Hg, Hst. reflexivity.
Qed.

Lemma X24_first_fetch_failure_witness :
  download_pinterest_video "https://pin.it/abc123" "out"
    (Scenario.direct_world []) Scenario.start
  = (Exn "Invalid URL or network error", mkState [EvGet "https://pin.it/abc123"] ∅)
  /\ download_pinterest_video "https://www.pinterest.com/pin/2/" "out"
       (Scenario.direct_world []) Scenario.start
     = (Exn "Failed to fetch Pinterest page",
        mkState [EvGet "https://www.pinterest.com/pin/2/"] ∅).
Proof.
  split.
  - exact (X24_first_fetch_failure (Scenario.direct_world []) Scenario.start
             "https://pin.it/abc123" "out" (mkResponse 404 "")
             eq_refl ltac:(discriminate)).
  - exact (X24_first_fetch_failure (Scenario.direct_world []) Scenario.start
             "https://www.pinterest.com/pin/2/" "out" (mkResponse 404 "")
             eq_refl ltac:(discriminate)).
Defined.

(** X25.  Without an audio URL the video is downloaded straight to the
    final file name: the result names that file when the download
    succeeds, and the operation raises when it fails; in both cases
    nothing is issued after the download, so no merge is run. *)
Theorem X25_single_track_download (w : World) (s : State)
    (page_url output_dir video_url : string) (audio_url : option string)
    (md : PageMetadata) (ts : string) (ok : bool) :
  let located := locate_streams page_url output_dir w s in
  let final_filename := path_join output_dir (ts +:+ ".mp4") in
  let rd := download_file video_url final_filename w (snd located) in
  fst located = Ok (video_url, audio_url, md, ts) ->
  truthy audio_url = false ->
  fst rd = Ok ok ->
  download_pinterest_video page_url output_dir w s
  = (if ok then Ok (mkResult final_filename md)
     else Exn "Failed to download video file",
     snd rd).
Proof.
  intros located final_filename rd Hloc Ha Hd.
  unfold download_pinterest_video.
  rewrite (run_bind_ok (locate_streams page_url output_dir) _ w s _ (snd located)
             (run_pair _ _ Hloc)).
  cbv beta iota. unfold download_tracks. fold final_filename.
  assert (E : forall X (two one : X),
             match audio_url with
             | Some (String c a) => two
             | _ => one
             end = one).
  { intros X two one. destruct audio_url as [[|c a]|]; try reflexivity. discriminate. }
  destruct audio_url as [[|c a]|]; try discriminate;
    rewrite (run_bind_ok _ _ w (snd located) ok (snd rd)) by (apply run_pair, Hd);
    destruct ok; reflexivity.
Qed.

Lemma X25_single_track_download_witness :
  download_pinterest_video Scenario.pin_page_url "out"
    (Scenario.direct_world [(Scenario.file_url, mkStream 200 None ["MP4"] false)])
    Scenario.start
  = (Ok (mkResult "out/2024-05-01T10-20-30.mp4" (mkMetadata None None [])),
     mkState [EvGet "https://www.pinterest.com/pin/1/"; EvMakedirs "out"; EvNow;
              EvStream Scenario.file_url; EvOpen "out/2024-05-01T10-20-30.mp4"]
       (<["out/2024-05-01T10-20-30.mp4" := "MP4"]> ∅)).
Proof.
  refine (eq_trans
            (X25_single_track_download
               (Scenario.direct_world [(Scenario.file_url, mkStream 200 None ["MP4"] false)])
               Scenario.start Scenario.pin_page_url "out" Scenario.file_url None
               (mkMetadata None None []) "2024-05-01T10-20-30" true _ _ _) _);
    vm_compute; reflexivity.
Defined.

(** X26.  When both temporary files have been downloaded and the merge
    succeeds, the result names the final file, nothing is issued after
    the merge, and neither temporary file is on disk any more. *)
Theorem X26_mux_success_returns_final_file (w : World) (s : State)
    (page_url output_dir video_url audio_url : string) (md : PageMetadata) (ts : string) :
  let located := locate_streams page_url output_dir w s in
  let video_filename := path_join output_dir (ts +:+ "_video.mp4") in
  let audio_filename := path_join output_dir (ts +:+ "_audio.mp4") in
  let final_filename := path_join output_dir (ts +:+ ".mp4") in
  let rv := download_file video_url video_filename w (snd located) in
  let ra := download_file audio_url audio_filename w (snd rv) in
  let rm := merge_video_audio video_filename audio_filename final_filename w (snd ra) in
  fst located = Ok (video_url, Some audio_url, md, ts) ->
  audio_url <> "" ->
  fst rv = Ok true ->
  fst ra = Ok true ->
  fst rm = Ok true ->
  download_pinterest_video page_url output_dir w s
  = (Ok (mkResult final_filename md), snd rm)
  /\ files (snd rm) !! video_filename = None
  /\ files (snd rm) !! audio_filename = None.
Proof.
  intros located video_filename audio_filename final_filename rv ra rm
    Hloc Hne Hv Ha Hm.
  split.
  - rewrite (run_two_tracks w s page_url output_dir video_url audio_url md ts Hloc Hne).
    fold located. unfold download_tracks.
    destruct audio_url as [|c a]; [congruence |].
    fold video_filename audio_filename final_filename.
    rewrite (run_bind_ok _ _ w (snd located) true (snd rv)) by (apply run_pair, Hv).
    cbn [negb].
    rewrite (run_bind_ok _ _ w (snd rv) true (snd ra)) by (apply run_pair, Ha).
    cbn [negb].
    rewrite (run_bind_ok _ _ w (snd ra) true (snd rm)) by (apply run_pair, Hm).
    reflexivity.
  - destruct (merge_video_audio_outcome w (snd ra) video_filename audio_filename
                final_filename) as (ok & E & H).
    fold rm in E, H. rewrite Hm in E. inversion E; subst ok. apply H. reflexivity.
Qed.

Lemma X26_mux_success_returns_final_file_witness :
  download_pinterest_video Scenario.pin_page_url "out"
    Scenario.mux_succeeds_world Scenario.start
  = (Ok (mkResult "out/2024-05-01T10-20-30.mp4" (mkMetadata None None [])),
     mkState
       [EvGet "https://www.pinterest.com/pin/1/";
        EvHead "https://v1.pinimg.com/videos/mc/720p/ab/x.mp4";
        EvGet "https://v1.pinimg.com/videos/mc/hls/ab/x.m3u8";
        EvGet "https://v1.pinimg.com/videos/mc/hls/ab/x_audio.m3u8";
        EvHead "https://v1.pinimg.com/videos/mc/hls/ab/a.cmfa";
        EvGet "https://v1.pinimg.com/videos/mc/hls/ab/x_720w.m3u8";
        EvHead "https://v1.pinimg.com/videos/mc/hls/ab/v.cmfv";
        EvMakedirs "out"; EvNow;
        EvStream "https://v1.pinimg.com/videos/mc/hls/ab/v.cmfv";
        EvOpen "out/2024-05-01T10-20-30_video.mp4";
        EvStream "https://v1.pinimg.com/videos/mc/hls/ab/a.cmfa";
        EvOpen "out/2024-05-01T10-20-30_audio.mp4";
        EvRun ["ffmpeg"; "-version"];
        EvRun (ffmpeg_cmd "out/2024-05-01T10-20-30_video.mp4"
                 "out/2024-05-01T10-20-30_audio.mp4" "out/2024-05-01T10-20-30.mp4");
        EvRemove "out/2024-05-01T10-20-30_video.mp4";
        EvRemove "out/2024-05-01T10-20-30_audio.mp4"]
       ∅).
Proof.
  pose proof (X26_mux_success_returns_final_file Scenario.mux_succeeds_world
                Scenario.start Scenario.pin_page_url "out"
                Scenario.video_segment Scenario.audio_segment
                (mkMetadata None None []) "2024-05-01T10-20-30"
                ltac:(vm_compute; reflexivity) ltac:(discriminate)
                ltac:(vm_compute; reflexivity) ltac:(vm_compute; reflexivity)
                ltac:(vm_compute; reflexivity)) as H.
  apply proj1 in H. vm_compute in H. vm_compute. exact H.
Defined.

(** X27.  The three file names of one run are pairwise different,
    whatever the output directory and the timestamp: the two temporary
    files never overwrite each other or the final file. *)
Theorem X27_file_names_are_distinct (output_dir timestamp : string) :
  let video_filename := path_join output_dir (timestamp +:+ "_video.mp4") in
  let audio_filename := path_join output_dir (timestamp +:+ "_audio.mp4") in
  let final_filename := path_join output_dir (timestamp +:+ ".mp4") in
  video_filename <> audio_filename
  /\ video_filename <> final_filename
  /\ audio_filename <> final_filename.
Proof.
  cbv zeta. repeat split; apply path_join_differ; solve [discriminate | reflexivity].
Qed.

Lemma src_of_truthy (tag : option Tag) (u : string) :
  src_of tag = Some u -> exists c r, u = String c r.
Proof.
  unfold src_of. destruct tag as [t|]; [| discriminate].
  destruct (tag_get t "src") as [[|c r]|]; cbn [truthy]; try discriminate.
  intros H. inversion H. eauto.
Qed.

(** X28.  A video element with a source decides the candidate URL: the
    source of the element with the known class signature when it has
    one, else the source of the first video element; the patterns over
    the page text play no part, and nothing is requested. *)
Theorem X28_video_element_comes_first (w : World) (s : State) (soup : Soup) (u : string) :
  match src_of (soup_find soup "video" [("class", "hwa kVc MIw L4E")]) with
  | Some src => Some src
  | None => src_of (soup_find soup "video" [])
  end = Some u ->
  find_extract_url soup w s = (Ok u, s).
Proof.
  intros H. unfold find_extract_url.
  destruct (src_of (soup_find soup "video" [("class", "hwa kVc MIw L4E")])) as [a|] eqn:A.
  - inversion H; subst a. destruct (src_of_truthy _ _ A) as (c & r & ->). reflexivity.
  - cbn [truthy negb]. rewrite H.
    destruct (src_of_truthy _ _ H) as (c & r & ->). reflexivity.
Qed.

Lemma X28_video_element_comes_first_witness :
  find_extract_url Scenario.pin_soup (Scenario.pin_world [] Scenario.no_tool) Scenario.start
  = (Ok Scenario.manifest_url, Scenario.start).
Proof.
  exact (X28_video_element_comes_first (Scenario.pin_world [] Scenario.no_tool)
           Scenario.start Scenario.pin_soup Scenario.manifest_url eq_refl).
Defined.

(* ================================================================= *)
(** ** The command line                                                 *)
(* ================================================================= *)

(** Called with anything but a URL and an output directory, the script
    prints the usage error and exits with status 1 without a single
    request, file operation or tool run. *)
Lemma main_wrong_arguments (w : World) (s : State) (argv : list string) :
  List.length argv <> 3%nat ->
  main argv w s
  = (Ok ([OutUsage "Usage: python pinterest_downloader.py <url> <output_dir>"], 1), s).
Proof.
  intros H. unfold main. apply Nat.eqb_neq in H. now rewrite H.
Qed.

Example main_wrong_arguments_ex :
  main ["pinterest_downloader.py"; "https://pin.it/abc123"]
    (Scenario.direct_world []) Scenario.start
  = (Ok ([OutUsage "Usage: python pinterest_downloader.py <url> <output_dir>"], 1),
     Scenario.start).
Proof. reflexivity. Qed.

(** X29.  What the script prints and how it exits, in each of its three
    cases.  With an argument count other than three: the usage object
    and status 1, nothing else done.  With three arguments, when
    [download_pinterest_video] on the second and third returns a result:
    the success object with that result's file path and metadata, and
    status 0.  When it raises: the failure object with the message of
    the exception, and status 1.  So in every case exactly one object is
    printed, the status is 0 or 1, and no exception of the download
    leaves the script. *)
Theorem X29_main_prints_one_object (w : World) (s : State) (argv : list string) :
  let url := List.nth 1 argv "" in
  let output_dir := List.nth 2 argv "" in
  let run := download_pinterest_video url output_dir w s in
  (List.length argv <> 3%nat ->
   main argv w s
   = (Ok ([OutUsage "Usage: python pinterest_downloader.py <url> <output_dir>"], 1), s))
  /\ (forall result,
        List.length argv = 3%nat -> fst run = Ok result ->
        main argv w s
        = (Ok ([OutSuccess (filePath result) (metadata result)], 0), snd run))
  /\ (forall e,
        List.length argv = 3%nat -> fst run = Exn e ->
        main argv w s = (Ok ([OutFailure e], 1), snd run))
  /\ exists (out : Output) (status : Z),
       fst (main argv w s) = Ok ([out], status) /\ (status = 0 \/ status = 1).
Proof.
  intros url output_dir run.
  assert (E3 : List.length argv = 3%nat ->
               main argv w s
               = match run with
                 | (Ok result, s') =>
                     (Ok ([OutSuccess (filePath result) (metadata result)], 0), s')
                 | (Exn e, s') => (Ok ([OutFailure e], 1), s')
                 end).
  { intros L. unfold main. rewrite L. cbn [Nat.eqb negb].
    unfold try_except. rewrite run_bind. fold url output_dir run.
    now destruct run as [[result|e] s']. }
  split; [apply main_wrong_arguments |]. split; [| split].
  - intros result L H. rewrite (E3 L). destruct run as [[r|e] s']; cbn [fst snd] in *;
      congruence.
  - intros e L H. rewrite (E3 L). destruct run as [[r|e'] s']; cbn [fst snd] in *;
      congruence.
  - destruct (Nat.eq_dec (List.length argv) 3%nat) as [L|L].
    + rewrite (E3 L). destruct run as [[r|e] s']; eexists _, _; split;
        try reflexivity; auto.
    + rewrite (main_wrong_arguments w s argv L). eexists _, _. split; [reflexivity | auto].
Qed.

Lemma X29_main_prints_one_object_witness :
  main ["pinterest_downloader.py"; "https://pin.it/abc123"]
    (Scenario.direct_world []) Scenario.start
  = (Ok ([OutUsage "Usage: python pinterest_downloader.py <url> <output_dir>"], 1),
     Scenario.start)
  /\ fst (main ["pinterest_downloader.py"; Scenario.pin_page_url; "out"]
            (Scenario.direct_world [(Scenario.file_url, mkStream 200 None ["MP4"] false)])
            Scenario.start)
     = Ok ([OutSuccess "out/2024-05-01T10-20-30.mp4" (mkMetadata None None [])], 0)
  /\ fst (main ["pinterest_downloader.py"; "https://www.pinterest.com/pin/2/"; "out"]
            (Scenario.direct_world []) Scenario.start)
     = Ok ([OutFailure "Failed to fetch Pinterest page"], 1).
Proof.
  split; [| split].
  - exact (proj1 (X29_main_prints_one_object (Scenario.direct_world []) Scenario.start
                    ["pinterest_downloader.py"; "https://pin.it/abc123"])
             ltac:(discriminate)).
  - pose proof (proj1 (proj2
        (X29_main_prints_one_object
           (Scenario.direct_world [(Scenario.file_url, mkStream 200 None ["MP4"] false)])
           Scenario.start ["pinterest_downloader.py"; Scenario.pin_page_url; "out"]))
        (mkResult "out/2024-05-01T10-20-30.mp4" (mkMetadata None None []))
        eq_refl ltac:(vm_compute; reflexivity)) as H.
    apply (f_equal fst) in H. vm_compute in H. vm_compute. exact H.
  - pose proof (proj1 (proj2 (proj2
        (X29_main_prints_one_object (Scenario.direct_world []) Scenario.start
           ["pinterest_downloader.py"; "https://www.pinterest.com/pin/2/"; "out"])))
        "Failed to fetch Pinterest page"
        eq_refl ltac:(vm_compute; reflexivity)) as H.
    apply (f_equal fst) in H. vm_compute in H. vm_compute. exact H.
Defined.

Example main_direct_download :
  fst (main ["pinterest_downloader.py"; Scenario.pin_page_url; "out"]
         (Scenario.direct_world [(Scenario.file_url, mkStream 200 None ["MP4"] false)])
         Scenario.start)
  = Ok ([OutSuccess "out/2024-05-01T10-20-30.mp4" (mkMetadata None None [])], 0).
Proof. vm_compute. reflexivity. Qed.
